(** * MultiQC odgi stats module: a shallow embedding and its properties

    Source: [multiqc/modules/odgi/stats.py] (class [MultiqcModule]).

    Python values are modelled as the module uses them:
    - [str] is [string]; the characters are the code points below 256,
      compared by code point as Python does;
    - a [dict] is an association list in insertion order with one binding
      per key (Python dictionaries keep insertion order, and two loops of
      the module depend on it);
    - exceptions are values of [exn], a computation of the module is a
      function from the state of the module instance to the new state and
      either the exception raised or the value returned;
    - the builtin [float] is a parameter: [float_of_str s] is [None] where
      Python raises [ValueError]. *)

From Stdlib Require Import List String Ascii ZArith Lia Bool Permutation Sorted.
From Stdlib Require Import DecimalString.
From Stdlib Require Import PrimFloat Uint63.
Import ListNotations.

Open Scope string_scope.
Open Scope list_scope.

(** ** Python strings *)

Module PyStr.

Definition TAB : ascii := ascii_of_nat 9.
Definition LF : ascii := ascii_of_nat 10.
Definition CR : ascii := ascii_of_nat 13.
Definition DOT : ascii := "."%char.

(** [needle in s] *)
Fixpoint contains (needle s : string) : bool :=
  String.prefix needle s ||
  match s with
  | EmptyString => false
  | String _ s' => contains needle s'
  end.

(** [s.split(sep)] for a separator of one character, the only use the
    module makes of it.  The result is never empty. *)
Fixpoint split (sep : ascii) (s : string) : list string :=
  match s with
  | EmptyString => [EmptyString]
  | String c s' =>
      if Ascii.eqb c sep then EmptyString :: split sep s'
      else match split sep s' with
           | [] => [String c EmptyString]
           | w :: ws => String c w :: ws
           end
  end.

(** The line boundaries of [str.splitlines] among the code points below
    256: LF, VT, FF, CR, FS, GS, RS and NEL. *)
Definition is_linebreak (c : ascii) : bool :=
  let n := nat_of_ascii c in
  (Nat.eqb n 10 || Nat.eqb n 11 || Nat.eqb n 12 || Nat.eqb n 13 ||
   Nat.eqb n 28 || Nat.eqb n 29 || Nat.eqb n 30 || Nat.eqb n 133)%bool.

(** [s.splitlines()]: CR LF is one boundary, boundaries are dropped, and a
    boundary at the end of the text opens no further line. *)
Fixpoint splitlines (s : string) : list string :=
  match s with
  | EmptyString => []
  | String c s' =>
      if is_linebreak c then
        EmptyString ::
          match s' with
          | String c' s'' =>
              if (Ascii.eqb c CR && Ascii.eqb c' LF)%bool
              then splitlines s'' else splitlines s'
          | EmptyString => []
          end
      else match splitlines s' with
           | [] => [String c EmptyString]
           | l :: ls => String c l :: ls
           end
  end.

(** ['prefix {}'.format(x)] *)
Definition format1 (prefix x : string) : string := prefix ++ x.

(** [str(n)] for the length of a container *)
Definition str_of_nat (n : nat) : string :=
  NilEmpty.string_of_uint (Nat.to_uint n).

End PyStr.

(** ** Python lists: indexing, slicing, sorting *)

Module PyList.

Section Generic.
Context {A : Type}.

(** The position an index denotes in a list of length [n]: a negative
    index counts from the end. *)
Definition index_norm (n : nat) (i : Z) : Z :=
  if (i <? 0)%Z then (i + Z.of_nat n)%Z else i.

(** [l[i]]; [None] where Python raises [IndexError]. *)
Definition item (l : list A) (i : Z) : option A :=
  let j := index_norm (List.length l) i in
  if (j <? 0)%Z then None else nth_error l (Z.to_nat j).

(** A bound of a slice: negative bounds count from the end, and the
    result is clamped to [0..n]. *)
Definition slice_bound (n : nat) (i : Z) : nat :=
  let j := index_norm n i in
  if (j <? 0)%Z then 0 else Nat.min (Z.to_nat j) n.

(** [l[start:stop]] with step 1; an omitted bound is [None]. *)
Definition slice (l : list A) (start stop : option Z) : list A :=
  let n := List.length l in
  let lo := match start with Some i => slice_bound n i | None => 0 end in
  let hi := match stop with Some i => slice_bound n i | None => n end in
  firstn (hi - lo) (skipn lo l).

End Generic.

(** [sorted(l)] on strings.  Python compares strings by code point, which
    is [String.leb]; the sort is stable, as insertion from the right is. *)
Fixpoint insert_sorted (x : string) (l : list string) : list string :=
  match l with
  | [] => [x]
  | y :: l' => if String.leb x y then x :: l else y :: insert_sorted x l'
  end.

Fixpoint sorted (l : list string) : list string :=
  match l with
  | [] => []
  | x :: l' => insert_sorted x (sorted l')
  end.

(** The order of [sorted]: code point by code point, a prefix first. *)
Definition le (s1 s2 : string) : Prop := String.leb s1 s2 = true.

End PyList.

(** ** Python dictionaries *)

Module PyDict.

Section Generic.
Context {V : Type}.

(** A dictionary in insertion order. *)
Definition t := list (string * V).

(** [d.keys()], in iteration order *)
Definition keys (d : t) : list string := map fst d.

(** [d[k]]; [None] where Python raises [KeyError]. *)
Fixpoint get (d : t) (k : string) : option V :=
  match d with
  | [] => None
  | (k', v) :: d' => if String.eqb k' k then Some v else get d' k
  end.

(** [d[k] = v]: a key already present keeps its place and takes the new
    value, a new key goes to the end. *)
Fixpoint set (d : t) (k : string) (v : V) : t :=
  match d with
  | [] => [(k, v)]
  | (k', v') :: d' =>
      if String.eqb k' k then (k', v) :: d' else (k', v') :: set d' k v
  end.

(** [d.update(other)]: the bindings of [other] are written in its order. *)
Definition update (d other : t) : t :=
  fold_left (fun acc kv => set acc (fst kv) (snd kv)) other d.

End Generic.

Arguments t : clear implicits.

End PyDict.

(** ** Exceptions *)

Inductive exn : Type :=
| IndexError
| KeyError (key : string)
| ValueError
| TypeError
| UserWarning
| SystemExit (status : Z).

(** The outcome of evaluating an expression that has no effect but may
    raise. *)
Inductive result (A : Type) : Type :=
| Ok (a : A)
| Raise (e : exn).

Arguments Ok {A} a.
Arguments Raise {A} e.

(** The spec's FormatError is what the interpreter raises on a text that
    does not have the layout: an index out of range or a failed
    conversion. *)
Definition is_FormatError (e : exn) : Prop := e = IndexError \/ e = ValueError.

(** The record [f] handed over by [find_log_files]: [f['fn']] is the name
    of the file and [f['f']] its text. *)
Record log_file : Type := { fn : string; f : string }.

(** The configuration passed with the line plot. *)
Record pconfig : Type := {
  categories : bool;
  yDecimals : bool;
  logswitch : bool;
  title : string
}.

(** ** An instance of [float] for the examples

    IEEE 754 binary64, as in CPython.  [float_of_str] reads an optional
    sign and a decimal numeral [digits], [digits.], [.digits] or
    [digits.digits] whose digits make an integer below [2^53] with at most
    18 of them after the point: the quotient of that integer by the power
    of ten, both exact in binary64, is then the correctly rounded value
    that [float] returns.  It is [None] on every other string; among those
    Python accepts some (exponents, [inf], [nan], underscores, surrounding
    blanks), which the examples avoid. *)

Module Double.

Definition F : Type := PrimFloat.float.

Definition digit (c : ascii) : option Z :=
  let n := nat_of_ascii c in
  if (Nat.leb 48 n && Nat.leb n 57)%bool then Some (Z.of_nat (n - 48)) else None.

(** Reads a numeral: the integer its digits make, how many digits there
    are, and how many after the point. *)
Fixpoint scan (s : string) (m : Z) (nd : nat) (frac : option nat)
    : option (Z * nat) :=
  match s with
  | EmptyString =>
      match nd with
      | O => None
      | S _ => Some (m, match frac with Some k => k | None => O end)
      end
  | String c s' =>
      if Ascii.eqb c "."%char then
        match frac with
        | Some _ => None
        | None => scan s' m nd (Some O)
        end
      else
        match digit c with
        | Some d => scan s' (10 * m + d)%Z (S nd) (option_map S frac)
        | None => None
        end
  end.

Definition of_Z (z : Z) : F := PrimFloat.of_uint63 (Uint63.of_Z z).

Definition unsigned (s : string) : option F :=
  match scan s 0%Z O None with
  | Some (m, k) =>
      if ((m <? 2 ^ 53)%Z && Nat.leb k 18)%bool
      then Some (PrimFloat.div (of_Z m) (of_Z (10 ^ Z.of_nat k)))
      else None
  | None => None
  end.

Definition float_of_str (s : string) : option F :=
  match s with
  | String "-"%char s' => option_map PrimFloat.opp (unsigned s')
  | String "+"%char s' => unsigned s'
  | _ => unsigned s
  end.

End Double.

(** ** The module *)

Module Odgi.

Import PyStr PyList.

Section Model.

(** Python's [float] type, and [float(s)] on a string: [None] where the
    builtin raises [ValueError]. *)
Variable F : Type.
Variable float_of_str : string -> option F.

(** The values the module stores in its dictionaries. *)
#[warning="-register-all"]
Inductive value : Type :=
| VFloat (x : F)
| VStr (s : string)
| VDict (d : list (string * value)).

Definition dict : Type := PyDict.t value.

(** Calls into the host framework and the logger, in the order made. *)
Inductive host_call : Type :=
| BaseInit (name anchor href info : string)
| LogInfo (msg : string)
| LogError (msg : string)
| AddDataSource (lf : log_file)
| WriteDataFile (data : dict) (name : string)
| GeneralStatsAddcols (data headers : dict)
| AddSection (name anchor description helptext : string)
             (plot_data : dict) (cfg : pconfig).

(** The instance: [self.odgi_stats_map] and what the host has been told. *)
Record state : Type := {
  odgi_stats_map : dict;
  calls : list host_call
}.

(** *** Computations *)

Definition Py (A : Type) : Type := state -> state * result A.

Definition ret {A} (a : A) : Py A := fun s => (s, Ok a).

Definition raise {A} (e : exn) : Py A := fun s => (s, Raise e).

Definition bind {A B} (m : Py A) (k : A -> Py B) : Py B :=
  fun s =>
    match m s with
    | (s', Ok a) => k a s'
    | (s', Raise e) => (s', Raise e)
    end.

Notation "x <- m ;; k" := (bind m (fun x => k))
  (at level 61, m at next level, right associativity).
Notation "m ;; k" := (bind m (fun _ => k))
  (at level 61, right associativity).

(** [try: m except E: handler] *)
Definition try_except {A} (m : Py A) (E : exn -> bool) (handler : Py A) : Py A :=
  fun s =>
    match m s with
    | (s', Raise e) => if E e then handler s' else (s', Raise e)
    | r => r
    end.

(** [for x in l: acc = body x acc] *)
Fixpoint for_each {A S} (l : list A) (acc : S) (body : A -> S -> Py S) : Py S :=
  match l with
  | [] => ret acc
  | x :: l' => acc' <- body x acc ;; for_each l' acc' body
  end.

Definition host (c : host_call) : Py unit :=
  fun s => ({| odgi_stats_map := odgi_stats_map s; calls := calls s ++ [c] |}, Ok tt).

Definition get_odgi_stats_map : Py dict := fun s => (s, Ok (odgi_stats_map s)).

Definition set_odgi_stats_map (d : dict) : Py unit :=
  fun s => ({| odgi_stats_map := d; calls := calls s |}, Ok tt).

(** [sys.exit(status)] *)
Definition sys_exit {A} (status : Z) : Py A := raise (SystemExit status).

(** [l[i]] *)
Definition getitem {A} (l : list A) (i : Z) : Py A :=
  match item l i with
  | Some x => ret x
  | None => raise IndexError
  end.

(** [v[k]] with a string [k] *)
Definition subscript (v : value) (k : string) : Py value :=
  match v with
  | VDict d =>
      match PyDict.get d k with
      | Some x => ret x
      | None => raise (KeyError k)
      end
  | _ => raise TypeError
  end.

(** [float(v)] *)
Definition float (v : value) : Py F :=
  match v with
  | VFloat x => ret x
  | VStr s =>
      match float_of_str s with
      | Some x => ret x
      | None => raise ValueError
      end
  | VDict _ => raise TypeError
  end.

Definition is_IndexError (e : exn) : bool :=
  match e with IndexError => true | _ => false end.

(** *** [strip_file_name] *)

Definition unknown_file_name : string :=
  "Unknown file name: File name must either contain seqwish, smooth or consensus@!".

Definition strip_file_name (fn : string) : Py string :=
  if contains "seqwish.og" fn then ret "seqwish"
  else if contains "smooth" fn then ret "smooth"
  else
    let fn := split DOT fn in
    let consensus_identifier := filter (contains "consensus@") fn in
    try_except (getitem consensus_identifier 0) is_IndexError
      (host (LogError unknown_file_name) ;; sys_exit 1).

(** *** [compress_stats_data] *)

Definition compress_stats_data
    (fn : string) (stats mean_links_length sum_of_path_nodes_distances : list string)
    : Py dict :=
  s0 <- getitem stats 0 ;; length <- float (VStr s0) ;;
  s1 <- getitem stats 1 ;; nodes <- float (VStr s1) ;;
  s2 <- getitem stats 2 ;; edges <- float (VStr s2) ;;
  s3 <- getitem stats 3 ;; paths <- float (VStr s3) ;;
  m0 <- getitem mean_links_length 0 ;;
  m1 <- getitem mean_links_length 1 ;;
  m2 <- getitem mean_links_length 2 ;;
  m3 <- getitem mean_links_length 3 ;;
  d0 <- getitem sum_of_path_nodes_distances 0 ;;
  d1 <- getitem sum_of_path_nodes_distances 1 ;;
  d2 <- getitem sum_of_path_nodes_distances 2 ;;
  d3 <- getitem sum_of_path_nodes_distances 3 ;;
  d4 <- getitem sum_of_path_nodes_distances 4 ;;
  d5 <- getitem sum_of_path_nodes_distances 5 ;;
  d6 <- getitem sum_of_path_nodes_distances 6 ;;
  ret [(fn, VDict [
    (format1 "General stats " fn, VDict [
       ("Length", VFloat length);
       ("Nodes", VFloat nodes);
       ("Edges", VFloat edges);
       ("Paths", VFloat paths)]);
    (format1 "Mean_links_length " fn, VDict [
       ("Path", VStr m0);
       ("In_node_space", VStr m1);
       ("In_nucleotide_space", VStr m2);
       ("Num_links_considered", VStr m3)]);
    (format1 "Sum_of_path_nodes_distances " fn, VDict [
       ("Path", VStr d0);
       ("In_node_space", VStr d1);
       ("In_nucleotide_space", VStr d2);
       ("Nodes", VStr d3);
       ("Nucleotides", VStr d4);
       ("Num_penalties", VStr d5);
       ("Num_penalties_different_orientation", VStr d6)])])].

(** *** [parse_odgi_stats_report] *)

Definition parse_odgi_stats_report (lf : log_file) : Py unit :=
  let lines := splitlines (f lf) in
  l1 <- getitem lines 1 ;;
  let stats := split TAB l1 in
  l4 <- getitem lines 4 ;;
  let mean_links_length := split TAB l4 in
  l7 <- getitem lines 7 ;;
  let sum_of_path_nodes_distances := split TAB l7 in
  d <- compress_stats_data (fn lf) stats mean_links_length sum_of_path_nodes_distances ;;
  m <- get_odgi_stats_map ;;
  set_odgi_stats_map (PyDict.update m d).

(** *** [plot_general_odgi_stats] *)

Definition header (title description scale : string) : value :=
  VDict [("title", VStr title); ("description", VStr description); ("scale", VStr scale)].

Definition plot_general_odgi_stats : Py unit :=
  let data : dict := [] in
  let headers : dict := [
    ("Length", header "Length" "Graph length" "BuPu");
    ("Nodes", header "Nodes" "Number of nodes in the graph" "OrRd");
    ("Edges", header "Edges" "Number of edges in the graph" "PuBu");
    ("Paths", header "Paths" "Number of paths through the graph" "Greens")] in
  m <- get_odgi_stats_map ;;
  data <- for_each (PyDict.keys m) data (fun fn data =>
    m <- get_odgi_stats_map ;;
    file_stats <- subscript (VDict m) fn ;;
    unique_file_identifier <- strip_file_name fn ;;
    row <- subscript file_stats (format1 "General stats " fn) ;;
    ret (PyDict.update data [(unique_file_identifier, row)])) ;;
  host (GeneralStatsAddcols data headers).

(** *** [plot_odgi_metrics] *)

(** The four dictionaries the loop of [plot_odgi_metrics] fills. *)
Record series : Type := {
  mean_links_length_nodes_space : dict;
  mean_links_length_nucleotide_space : dict;
  sum_of_path_nodes_distances_nodes_space : dict;
  sum_of_path_nodes_distances_nucleotide_space : dict
}.

(** The order in which [plot_odgi_metrics] visits the file names. *)
Definition sorted_filenames (m : dict) : list string :=
  let odgi_stats_file_names := sorted (PyDict.keys m) in
  let seq_smooth := slice odgi_stats_file_names (Some (-2)%Z) None in
  seq_smooth ++ slice odgi_stats_file_names None (Some (-2)%Z).

Definition metrics_body (fn : string) (acc : series) : Py series :=
  m <- get_odgi_stats_map ;;
  file_stats <- subscript (VDict m) fn ;;
  unique_file_identifier <- strip_file_name fn ;;
  t <- subscript file_stats (format1 "Mean_links_length " fn) ;;
  s <- subscript t "In_node_space" ;;
  x <- float s ;;
  let a := PyDict.update (mean_links_length_nodes_space acc)
             [(unique_file_identifier, VFloat x)] in
  t <- subscript file_stats (format1 "Mean_links_length " fn) ;;
  s <- subscript t "In_nucleotide_space" ;;
  x <- float s ;;
  let b := PyDict.update (mean_links_length_nucleotide_space acc)
             [(unique_file_identifier, VFloat x)] in
  t <- subscript file_stats (format1 "Sum_of_path_nodes_distances " fn) ;;
  s <- subscript t "In_node_space" ;;
  x <- float s ;;
  let c := PyDict.update (sum_of_path_nodes_distances_nodes_space acc)
             [(unique_file_identifier, VFloat x)] in
  t <- subscript file_stats (format1 "Sum_of_path_nodes_distances " fn) ;;
  s <- subscript t "In_nucleotide_space" ;;
  x <- float s ;;
  let d := PyDict.update (sum_of_path_nodes_distances_nucleotide_space acc)
             [(unique_file_identifier, VFloat x)] in
  ret {| mean_links_length_nodes_space := a;
         mean_links_length_nucleotide_space := b;
         sum_of_path_nodes_distances_nodes_space := c;
         sum_of_path_nodes_distances_nucleotide_space := d |}.

Definition metrics_lineplot_config : pconfig :=
  {| categories := true; yDecimals := false; logswitch := true;
     title := "Odgi: Odgi metrics" |}.

(** The loop of [plot_odgi_metrics], up to the dictionaries it has built. *)
Definition odgi_metrics_series : Py series :=
  let empty := {| mean_links_length_nodes_space := [];
                  mean_links_length_nucleotide_space := [];
                  sum_of_path_nodes_distances_nodes_space := [];
                  sum_of_path_nodes_distances_nucleotide_space := [] |} in
  m <- get_odgi_stats_map ;;
  for_each (sorted_filenames m) empty metrics_body.

Definition plot_odgi_metrics : Py unit :=
  r <- odgi_metrics_series ;;
  host (AddSection "Odgi metrics" "odgi-stats" "The odgi metrics section"
          "odgi metrics generated by the odgi stats module."
          [("in_node_space_mean", VDict (mean_links_length_nodes_space r));
           ("in_nucleotide_space_mean", VDict (mean_links_length_nucleotide_space r));
           ("in_node_space_sum", VDict (sum_of_path_nodes_distances_nodes_space r));
           ("in_nucleotide_space_sum",
            VDict (sum_of_path_nodes_distances_nucleotide_space r))]
          metrics_lineplot_config).

(** *** [__init__]; [found] is what [self.find_log_files('odgi/stats')]
    returns. *)

Definition init (found : list log_file) : Py unit :=
  host (BaseInit "Odgi" "odgi" "https://github.com/vgteam/odgi"
          "is an optimized dynamic graph/genome implementation.") ;;
  set_odgi_stats_map [] ;;
  let log_files := found in
  match log_files with
  | [] => raise UserWarning
  | _ =>
    m <- get_odgi_stats_map ;;
    host (LogInfo ("Found " ++ str_of_nat (List.length m) ++ " reports")) ;;
    for_each log_files tt (fun lf _ =>
      parse_odgi_stats_report lf ;;
      host (AddDataSource lf)) ;;
    m <- get_odgi_stats_map ;;
    host (WriteDataFile m "multiqc_odgi_stats") ;;
    plot_general_odgi_stats ;;
    plot_odgi_metrics
  end.

(** The state before [__init__] runs. *)
Definition fresh : state := {| odgi_stats_map := []; calls := [] |}.

End Model.

Arguments VFloat {F} x.
Arguments VStr {F} s.
Arguments VDict {F} d.
Arguments BaseInit {F}.
Arguments LogInfo {F}.
Arguments LogError {F}.
Arguments AddDataSource {F}.
Arguments WriteDataFile {F}.
Arguments GeneralStatsAddcols {F}.
Arguments AddSection {F}.
Arguments odgi_stats_map {F}.
Arguments calls {F}.
Arguments Build_state {F}.
Arguments ret {F A}.
Arguments raise {F A}.
Arguments bind {F A B}.
Arguments try_except {F A}.
Arguments for_each {F A S}.
Arguments host {F}.
Arguments get_odgi_stats_map {F}.
Arguments set_odgi_stats_map {F}.
Arguments sys_exit {F A}.
Arguments getitem {F A}.
Arguments subscript {F}.
Arguments float {F}.
Arguments strip_file_name {F}.
Arguments compress_stats_data {F}.
Arguments parse_odgi_stats_report {F}.
Arguments header {F}.
Arguments plot_general_odgi_stats {F}.
Arguments mean_links_length_nodes_space {F}.
Arguments mean_links_length_nucleotide_space {F}.
Arguments sum_of_path_nodes_distances_nodes_space {F}.
Arguments sum_of_path_nodes_distances_nucleotide_space {F}.
Arguments Build_series {F}.
Arguments sorted_filenames {F}.
Arguments metrics_body {F}.
Arguments odgi_metrics_series {F}.
Arguments plot_odgi_metrics {F}.
Arguments init {F}.
Arguments fresh {F}.

Notation "x <- m ;; k" := (bind m (fun x => k))
  (at level 61, m at next level, right associativity).
Notation "m ;; k" := (bind m (fun _ => k))
  (at level 61, right associativity).

(** ** Vocabulary of the statements *)

Section Vocabulary.

Context {F : Type}.
Variable float_of_str : string -> option F.

(** Group-identifier derivation in the words of the specification:
    ["seqwish"] if the name contains [seqwish.og], else ["smooth"] if it
    contains [smooth], else the first segment between dots containing
    [consensus@]; [None] when there is none. *)
Definition deriveId_spec (fn : string) : option string :=
  if contains "seqwish.og" fn then Some "seqwish"
  else if contains "smooth" fn then Some "smooth"
  else find (contains "consensus@") (split DOT fn).

(** The tab-separated tokens of line [i] of a text, and token [j] of them. *)
Definition tokens (text : string) (i : nat) : list string :=
  match nth_error (splitlines text) i with
  | Some l => split TAB l
  | None => []
  end.

Definition token (text : string) (i j : nat) : string :=
  nth j (tokens text i) "".

Definition numeric (s : string) : bool :=
  match float_of_str s with Some _ => true | None => false end.

(** What [compress_stats_data] needs of the three token lists: four
    tokens or more on lines 1 and 4, seven or more on line 7, and the first
    four tokens of line 1 numeric. *)
Definition fields_ok (stats mean_links_length sum_of_path_nodes_distances
                      : list string) : bool :=
  (Nat.leb 4 (List.length stats) &&
   Nat.leb 4 (List.length mean_links_length) &&
   Nat.leb 7 (List.length sum_of_path_nodes_distances) &&
   numeric (nth 0 stats "") && numeric (nth 1 stats "") &&
   numeric (nth 2 stats "") && numeric (nth 3 stats ""))%bool.

(** A well-formed text: eight lines or more, and lines 1, 4 and 7 as
    [fields_ok] has them. *)
Definition well_formed (text : string) : bool :=
  (Nat.leb 8 (List.length (splitlines text)) &&
   fields_ok (tokens text 1) (tokens text 4) (tokens text 7))%bool.

(** The row of general statistics with the given four values. *)
Definition general_stats (length nodes edges paths : F) : value F :=
  VDict [("Length", VFloat length); ("Nodes", VFloat nodes);
         ("Edges", VFloat edges); ("Paths", VFloat paths)].

(** The report of a file: its general statistics, and the tokens of lines
    4 and 7 as they are. *)
Definition report (fn : string) (general : value F)
    (mean_links_length sum_of_path_nodes_distances : list string) : value F :=
  VDict [
    (format1 "General stats " fn, general);
    (format1 "Mean_links_length " fn, VDict [
       ("Path", VStr (nth 0 mean_links_length ""));
       ("In_node_space", VStr (nth 1 mean_links_length ""));
       ("In_nucleotide_space", VStr (nth 2 mean_links_length ""));
       ("Num_links_considered", VStr (nth 3 mean_links_length ""))]);
    (format1 "Sum_of_path_nodes_distances " fn, VDict [
       ("Path", VStr (nth 0 sum_of_path_nodes_distances ""));
       ("In_node_space", VStr (nth 1 sum_of_path_nodes_distances ""));
       ("In_nucleotide_space", VStr (nth 2 sum_of_path_nodes_distances ""));
       ("Nodes", VStr (nth 3 sum_of_path_nodes_distances ""));
       ("Nucleotides", VStr (nth 4 sum_of_path_nodes_distances ""));
       ("Num_penalties", VStr (nth 5 sum_of_path_nodes_distances ""));
       ("Num_penalties_different_orientation",
        VStr (nth 6 sum_of_path_nodes_distances ""))])].

Definition file_report (fn text : string) (general : value F) : value F :=
  report fn general (tokens text 4) (tokens text 7).

(** The state with another [odgi_stats_map], and with one more call. *)
Definition with_map (s : state F) (m : dict F) : state F :=
  {| odgi_stats_map := m; calls := calls s |}.

Definition with_call (s : state F) (c : host_call F) : state F :=
  {| odgi_stats_map := odgi_stats_map s; calls := calls s ++ [c] |}.

(** [m[fn][section fn]] of a store, where it is there. *)
Definition section_of (m : dict F) (section fn : string) : option (value F) :=
  match PyDict.get m fn with
  | Some (VDict file_stats) => PyDict.get file_stats (format1 section fn)
  | _ => None
  end.

(** [float(m[fn][section fn][field])] of a store, where it has a value. *)
Definition chart_value (m : dict F) (section field fn : string) : option F :=
  match section_of m section fn with
  | Some (VDict row) =>
      match PyDict.get row field with
      | Some (VFloat x) => Some x
      | Some (VStr s) => float_of_str s
      | _ => None
      end
  | _ => None
  end.

(** The identifier and the row [plot_general_odgi_stats] writes for a
    file name, where it has both. *)
Definition summary_entry (m : dict F) (fn : string) : option (string * value F) :=
  match deriveId_spec fn, section_of m "General stats " fn with
  | Some id, Some row => Some (id, row)
  | _, _ => None
  end.

(** The column headers [plot_general_odgi_stats] hands over. *)
Definition summary_headers : dict F := [
  ("Length", header "Length" "Graph length" "BuPu");
  ("Nodes", header "Nodes" "Number of nodes in the graph" "OrRd");
  ("Edges", header "Edges" "Number of edges in the graph" "PuBu");
  ("Paths", header "Paths" "Number of paths through the graph" "Greens")].

(** The series after a round of the loop of [plot_odgi_metrics] that
    read the values [a], [b], [c] and [d] for the identifier [id]. *)
Definition series_set (acc : series F) (id : string) (a b c d : F) : series F :=
  {| mean_links_length_nodes_space :=
       PyDict.set (mean_links_length_nodes_space acc) id (VFloat a);
     mean_links_length_nucleotide_space :=
       PyDict.set (mean_links_length_nucleotide_space acc) id (VFloat b);
     sum_of_path_nodes_distances_nodes_space :=
       PyDict.set (sum_of_path_nodes_distances_nodes_space acc) id (VFloat c);
     sum_of_path_nodes_distances_nucleotide_space :=
       PyDict.set (sum_of_path_nodes_distances_nucleotide_space acc) id (VFloat d) |}.

Definition series_empty : series F :=
  {| mean_links_length_nodes_space := [];
     mean_links_length_nucleotide_space := [];
     sum_of_path_nodes_distances_nodes_space := [];
     sum_of_path_nodes_distances_nucleotide_space := [] |}.

(** What a round of the loop of [plot_odgi_metrics] reads for a file
    name: the identifier and the four values, where it has them all. *)
Definition chart_entry (m : dict F) (fn : string)
    : option (string * F * F * F * F) :=
  match deriveId_spec fn,
        chart_value m "Mean_links_length " "In_node_space" fn,
        chart_value m "Mean_links_length " "In_nucleotide_space" fn,
        chart_value m "Sum_of_path_nodes_distances " "In_node_space" fn,
        chart_value m "Sum_of_path_nodes_distances " "In_nucleotide_space" fn
  with
  | Some id, Some a, Some b, Some c, Some d => Some (id, a, b, c, d)
  | _, _, _, _, _ => None
  end.

Definition series_step (acc : series F) (e : string * F * F * F * F) : series F :=
  let '(id, a, b, c, d) := e in series_set acc id a b c d.

(** [v] is the report extraction builds from the record [lf]. *)
Definition extracted_report (lf : log_file) (v : value F) : Prop :=
  exists x0 x1 x2 x3,
    float_of_str (token (f lf) 1 0) = Some x0 /\
    float_of_str (token (f lf) 1 1) = Some x1 /\
    float_of_str (token (f lf) 1 2) = Some x2 /\
    float_of_str (token (f lf) 1 3) = Some x3 /\
    v = file_report (fn lf) (f lf) (general_stats x0 x1 x2 x3).

(** The store holds, under the name of [lf], the report extracted from
    it. *)
Definition stored (m : dict F) (lf : log_file) : Prop :=
  exists v, PyDict.get m (fn lf) = Some v /\ extracted_report lf v.

(** Every entry of the store is the report extracted from a record of
    that name. *)
Definition from_extraction (m : dict F) : Prop :=
  forall name, In name (PyDict.keys m) ->
    exists lf, fn lf = name /\ stored m lf.

(** Every name in the store has a group identifier. *)
Definition derivable (m : dict F) : Prop :=
  forall name, In name (PyDict.keys m) -> deriveId_spec name <> None.

(** The four tokens the chart reads from a text are numeric. *)
Definition chartable (text : string) : bool :=
  (numeric (token text 4 1) && numeric (token text 4 2) &&
   numeric (token text 7 1) && numeric (token text 7 2))%bool.

End Vocabulary.

End Odgi.

(** * Example records *)

Module Examples.

Import PyStr Odgi.

(** A line of tab-separated fields, and a text of lines ending in LF. *)
Definition line (fields : list string) : string :=
  String.concat (String TAB "") fields.

Fixpoint text (lines : list string) : string :=
  match lines with
  | [] => ""
  | l :: ls => l ++ String LF (text ls)
  end.

(** A report with the given fields on lines 1, 4 and 7 and the headers
    of the docstring of [parse_odgi_stats_report] around them. *)
Definition report_text (stats mean_links_length sum_of_path_nodes_distances
                        : list string) : string :=
  text [
    line ["length"; "nodes"; "edges"; "paths"];
    line stats;
    "#mean_links_length";
    line ["path"; "in_node_space"; "in_nucleotide_space"; "num_links_considered"];
    line mean_links_length;
    "#sum_of_path_node_distances";
    line ["path"; "in_node_space"; "in_nucleotide_space"; "nodes";
          "nucleotides"; "num_penalties"; "num_penalties_different_orientation"];
    line sum_of_path_nodes_distances].

(** The report of the docstring. *)
Definition docstring_text : string :=
  report_text ["8778"; "168"; "243"; "35"]
              ["all_paths"; "9.75053"; "497.321"; "942"]
              ["all_paths"; "20.0686"; "19.5609"; "977"; "51365"; "90"; "0"].

(** Another graph: different numbers throughout. *)
Definition other_text : string :=
  report_text ["9000"; "170"; "250"; "36"]
              ["all_paths"; "10.5"; "500.25"; "950"]
              ["all_paths"; "21.5"; "20.25"; "980"; "52000"; "91"; "1"].

(** Five fields on line 1. *)
Definition extra_field_text : string :=
  report_text ["8778"; "168"; "243"; "35"; "7"]
              ["all_paths"; "9.75053"; "497.321"; "942"]
              ["all_paths"; "20.0686"; "19.5609"; "977"; "51365"; "90"; "0"].

(** Three fields on line 4. *)
Definition missing_field_text : string :=
  report_text ["8778"; "168"; "243"; "35"]
              ["all_paths"; "9.75053"; "497.321"]
              ["all_paths"; "20.0686"; "19.5609"; "977"; "51365"; "90"; "0"].

(** A word where line 1 has the number of nodes. *)
Definition bad_nodes_text : string :=
  report_text ["8778"; "many"; "243"; "35"]
              ["all_paths"; "9.75053"; "497.321"; "942"]
              ["all_paths"; "20.0686"; "19.5609"; "977"; "51365"; "90"; "0"].

(** A word where line 4 has the mean link length in node space. *)
Definition bad_links_text : string :=
  report_text ["8778"; "168"; "243"; "35"]
              ["all_paths"; "unknown"; "497.321"; "942"]
              ["all_paths"; "20.0686"; "19.5609"; "977"; "51365"; "90"; "0"].

(** The first three lines of the docstring report. *)
Definition short_text : string :=
  text [line ["length"; "nodes"; "edges"; "paths"];
        line ["8778"; "168"; "243"; "35"];
        "#mean_links_length"].

Definition record (name content : string) : log_file :=
  {| fn := name; f := content |}.

(** The instance after the reports found have been parsed, as the loop of
    [__init__] leaves it. *)
Definition loaded (found : list log_file) : state Double.F :=
  fst (for_each found tt (fun lf _ =>
         parse_odgi_stats_report Double.float_of_str lf ;;
         host (AddDataSource lf)) fresh).

Definition one_seqwish : list log_file :=
  [record "x.seqwish.og.tsv" docstring_text].

(** Two files of the smoothed graph: both derive ["smooth"]. *)
Definition two_smooth : list log_file :=
  [record "a.smooth.tsv" docstring_text; record "b.smooth.tsv" other_text].

(** The three stages, found in the order of their names. *)
Definition three_stages : list log_file :=
  [record "a.seqwish.og" docstring_text;
   record "b.smooth" other_text;
   record "c.consensus@1" docstring_text].

End Examples.

(** * Vocabulary of the run *)

Module OdgiRun.

Import PyStr PyList Odgi.

(** The strings of a list at their first occurrence, in order. *)
Fixpoint distinct (l : list string) : list string :=
  match l with
  | [] => []
  | x :: l' => x :: filter (fun y => negb (String.eqb x y)) (distinct l')
  end.

(** [k in ks] *)
Definition mem (k : string) (ks : list string) : bool :=
  existsb (String.eqb k) ks.

Section Run.

Context {F : Type}.
Variable float_of_str : string -> option F.

(** The loop of [__init__] over the reports found. *)
Definition parse_all (found : list log_file) : Py F unit :=
  for_each found tt (fun lf _ =>
    parse_odgi_stats_report float_of_str lf ;; host (AddDataSource lf)).

(** A record and the entry extraction writes for it into the store. *)
Definition entry_of (lf : log_file) (e : string * value F) : Prop :=
  fst e = fn lf /\ extracted_report float_of_str lf (snd e).

(** What [__init__] tells the host before it parses: the base class is
    initialised, and the count that is logged is that of the store, which
    is still empty. *)
Definition opening : list (host_call F) :=
  [BaseInit "Odgi" "odgi" "https://github.com/vgteam/odgi"
     "is an optimized dynamic graph/genome implementation.";
   LogInfo "Found 0 reports"].

(** The section [plot_odgi_metrics] adds for the series [r]. *)
Definition metrics_section (r : series F) : host_call F :=
  AddSection "Odgi metrics" "odgi-stats" "The odgi metrics section"
    "odgi metrics generated by the odgi stats module."
    [("in_node_space_mean", VDict (mean_links_length_nodes_space r));
     ("in_nucleotide_space_mean", VDict (mean_links_length_nucleotide_space r));
     ("in_node_space_sum", VDict (sum_of_path_nodes_distances_nodes_space r));
     ("in_nucleotide_space_sum",
      VDict (sum_of_path_nodes_distances_nucleotide_space r))]
    metrics_lineplot_config.

(** A computation that leaves the store as it is and only adds to the
    calls made, whatever its outcome. *)
Definition keeps_store {A} (c : Py F A) : Prop :=
  forall s,
    odgi_stats_map (fst (c s)) = odgi_stats_map s /\
    exists l, calls (fst (c s)) = calls s ++ l.

(** The exceptions [__init__] can end with. *)
Definition init_exception (found : list log_file) (e : exn) : Prop :=
  match e with
  | UserWarning => found = []
  | IndexError | ValueError => found <> []
  | SystemExit status => status = 1%Z /\ found <> []
  | KeyError _ | TypeError => False
  end.

End Run.

End OdgiRun.

(** * Further example records *)

Module MoreExamples.

Import PyStr Odgi Examples.

(** The three data lines of the docstring with a field more on each,
    among other lines and with a line after them. *)
Definition bare_text : string :=
  text ["";
        line ["8778"; "168"; "243"; "35"; "x"];
        "";
        "header";
        line ["all_paths"; "9.75053"; "497.321"; "942"; "y"];
        "";
        "header";
        line ["all_paths"; "20.0686"; "19.5609"; "977"; "51365"; "90"; "0"; "z"];
        "trailer"].

(** A name found twice, with another between. *)
Definition found_again : list log_file :=
  [record "a.smooth.tsv" docstring_text;
   record "b.seqwish.og" docstring_text;
   record "a.smooth.tsv" other_text].

(** A text of three lines after a good report. *)
Definition then_short : list log_file :=
  [record "a.smooth.tsv" docstring_text;
   record "b.smooth.tsv" short_text;
   record "c.smooth.tsv" other_text].

(** A name of no convention after a good one. *)
Definition then_unknown : list log_file :=
  [record "a.smooth.tsv" docstring_text;
   record "random_name.tsv" other_text].

(** The three stages found in another order. *)
Definition three_stages_shuffled : list log_file :=
  [record "c.consensus@1" docstring_text;
   record "a.seqwish.og" docstring_text;
   record "b.smooth" other_text].

End MoreExamples.

(** * Properties of the Python primitives *)

Module PyStrFacts.

Import PyStr.

Lemma prefix_app (needle s : string) :
  String.prefix needle s = true <-> exists post, s = (needle ++ post)%string.
Proof.
  revert s. induction needle as [|a n IH]; intros [|b s]; simpl.
  - split; [exists ""%string; reflexivity | reflexivity].
  - split; [exists (String b s); reflexivity | reflexivity].
  - split; [discriminate | intros (post & H); discriminate].
  - destruct (ascii_dec a b) as [->|ne].
    + rewrite IH. split; intros (post & H); exists post; congruence.
    + split; [discriminate | intros (post & H); congruence].
Qed.

(** [needle in s] holds exactly when [s] is [pre ++ needle ++ post]. *)
Lemma contains_spec (needle s : string) :
  contains needle s = true <->
  exists pre post, s = (pre ++ needle ++ post)%string.
Proof.
  induction s as [|c s IH]; cbn [contains]; rewrite orb_true_iff, prefix_app.
  - split.
    + intros [(post & H) | H]; [|discriminate].
      exists ""%string, post. exact H.
    + intros (pre & post & H). left. destruct pre; [|discriminate].
      eauto.
  - rewrite IH. split.
    + intros [(post & H) | (pre & post & ->)].
      * exists ""%string, post. exact H.
      * exists (String c pre), post. reflexivity.
    + intros (pre & post & H). destruct pre as [|a pre]; simpl in H.
      * left. eauto.
      * right. injection H as _ ->. eauto.
Qed.

Lemma split_nonempty (sep : ascii) (s : string) : split sep s <> [].
Proof.
  induction s as [|c s IH]; simpl; [discriminate|].
  destruct (Ascii.eqb c sep); [discriminate|].
  destruct (split sep s); [contradiction | discriminate].
Qed.

(** Joining the pieces with the separator gives the string back. *)
Lemma split_concat (sep : ascii) (s : string) :
  String.concat (String sep "") (split sep s) = s.
Proof.
  induction s as [|c s IH]; simpl; [reflexivity|].
  destruct (Ascii.eqb_spec c sep) as [->|ne].
  - simpl. pose proof (split_nonempty sep s).
    destruct (split sep s) as [|w ws]; [contradiction|].
    simpl in *. f_equal. exact IH.
  - pose proof (split_nonempty sep s).
    destruct (split sep s) as [|w ws]; [contradiction|].
    simpl in *. destruct ws; simpl in *; f_equal; exact IH.
Qed.

End PyStrFacts.

Module PyListFacts.

Import PyList.

(** *** The order on strings *)

Lemma ascii_compare_refl (a : ascii) : Ascii.compare a a = Eq.
Proof. unfold Ascii.compare. apply N.compare_refl. Qed.

Lemma ascii_compare_eq (a b : ascii) : Ascii.compare a b = Eq -> a = b.
Proof.
  unfold Ascii.compare. intros H. apply N.compare_eq in H.
  rewrite <- (ascii_N_embedding a), <- (ascii_N_embedding b). congruence.
Qed.

Lemma ascii_compare_lt_trans (a b c : ascii) :
  Ascii.compare a b = Lt -> Ascii.compare b c = Lt -> Ascii.compare a c = Lt.
Proof.
  unfold Ascii.compare. rewrite !N.compare_lt_iff. apply N.lt_trans.
Qed.

Lemma ascii_compare_gt (a b : ascii) :
  Ascii.compare a b = Gt -> Ascii.compare b a = Lt.
Proof.
  unfold Ascii.compare. rewrite N.compare_gt_iff, N.compare_lt_iff. trivial.
Qed.

Lemma compare_le_trans (s1 s2 s3 : string) :
  String.compare s1 s2 <> Gt -> String.compare s2 s3 <> Gt ->
  String.compare s1 s3 <> Gt.
Proof.
  revert s2 s3.
  induction s1 as [|a s1 IH]; intros [|b s2] [|c s3]; simpl; try congruence.
  destruct (Ascii.compare a b) eqn:Eab; try congruence;
    destruct (Ascii.compare b c) eqn:Ebc; try congruence; intros H12 H23.
  - apply ascii_compare_eq in Eab, Ebc. subst.
    rewrite ascii_compare_refl. eauto.
  - apply ascii_compare_eq in Eab. subst. rewrite Ebc. discriminate.
  - apply ascii_compare_eq in Ebc. subst. rewrite Eab. discriminate.
  - rewrite (ascii_compare_lt_trans _ _ _ Eab Ebc). discriminate.
Qed.

Lemma leb_le (s1 s2 : string) :
  String.leb s1 s2 = true <-> String.compare s1 s2 <> Gt.
Proof.
  unfold String.leb. destruct (String.compare s1 s2); split; congruence.
Qed.

Lemma leb_trans (s1 s2 s3 : string) :
  String.leb s1 s2 = true -> String.leb s2 s3 = true -> String.leb s1 s3 = true.
Proof. rewrite !leb_le. apply compare_le_trans. Qed.

Lemma leb_false_flip (s1 s2 : string) :
  String.leb s1 s2 = false -> String.leb s2 s1 = true.
Proof.
  intros H. destruct (String.leb_total s1 s2) as [H'|H']; congruence.
Qed.

(** *** [sorted] *)

Lemma insert_sorted_perm (x : string) (l : list string) :
  Permutation (x :: l) (insert_sorted x l).
Proof.
  induction l as [|y l IH]; simpl; [reflexivity|].
  destruct (String.leb x y); [reflexivity|].
  rewrite perm_swap. apply perm_skip, IH.
Qed.

Lemma sorted_perm (l : list string) : Permutation l (sorted l).
Proof.
  induction l as [|x l IH]; simpl; [reflexivity|].
  rewrite <- insert_sorted_perm. apply perm_skip, IH.
Qed.

Lemma insert_sorted_ordered (x : string) (l : list string) :
  StronglySorted le l -> StronglySorted le (insert_sorted x l).
Proof.
  induction 1 as [|y l Hl IH Hy]; simpl.
  - repeat constructor.
  - destruct (String.leb x y) eqn:E.
    + constructor; [constructor; assumption|].
      constructor; [exact E|].
      eapply Forall_impl; [|exact Hy].
      intros z Hz. eapply leb_trans; eassumption.
    + constructor; [exact IH|].
      apply leb_false_flip in E.
      eapply Permutation_Forall; [apply insert_sorted_perm|].
      constructor; assumption.
Qed.

Lemma sorted_ordered (l : list string) : StronglySorted le (sorted l).
Proof.
  induction l; simpl; [constructor | apply insert_sorted_ordered; assumption].
Qed.

(** Any ordered arrangement of the same strings is the one [sorted]
    returns: the result does not depend on the sorting algorithm. *)
Lemma ordered_perm_unique (l1 l2 : list string) :
  StronglySorted le l1 -> StronglySorted le l2 -> Permutation l1 l2 -> l1 = l2.
Proof.
  intros H1. revert l2. induction H1 as [|x l1 H1 IH Hx]; intros l2 H2 P.
  - apply Permutation_nil in P. congruence.
  - destruct H2 as [|y l2 H2 Hy].
    + apply Permutation_sym, Permutation_nil in P. discriminate.
    + assert (x = y) as ->.
      { assert (In x (y :: l2)) as Ix
          by (eapply Permutation_in; [exact P | left; reflexivity]).
        assert (In y (x :: l1)) as Iy
          by (eapply Permutation_in; [symmetry; exact P | left; reflexivity]).
        destruct Ix as [->|Ix]; [reflexivity|].
        destruct Iy as [->|Iy]; [reflexivity|].
        rewrite Forall_forall in Hx, Hy.
        apply String.leb_antisym; [apply Hx | apply Hy]; assumption. }
      f_equal. apply IH; [assumption|].
      eapply Permutation_cons_inv; exact P.
Qed.

(** *** The two slices of [plot_odgi_metrics] *)

Lemma slice_last_two {A} (l : list A) :
  slice l (Some (-2)%Z) None = skipn (List.length l - 2) l.
Proof.
  unfold slice, slice_bound, index_norm.
  change (-2 <? 0)%Z with true. cbv iota.
  set (n := List.length l).
  rewrite <- (firstn_all (skipn (n - 2) l)), length_skipn. fold n.
  destruct (Z.ltb_spec (-2 + Z.of_nat n) 0) as [H|H].
  - replace (n - 2) with 0 by lia. reflexivity.
  - replace (Nat.min (Z.to_nat (-2 + Z.of_nat n)) n) with (n - 2) by lia.
    reflexivity.
Qed.

Lemma slice_but_last_two {A} (l : list A) :
  slice l None (Some (-2)%Z) = firstn (List.length l - 2) l.
Proof.
  unfold slice, slice_bound, index_norm.
  change (-2 <? 0)%Z with true. cbv iota.
  set (n := List.length l).
  rewrite Nat.sub_0_r. change (skipn 0 l) with l.
  destruct (Z.ltb_spec (-2 + Z.of_nat n) 0) as [H|H]; f_equal; lia.
Qed.

Lemma item_nat {A} (l : list A) (i : nat) :
  item l (Z.of_nat i) = nth_error l i.
Proof.
  unfold item, index_norm.
  destruct (Z.ltb_spec (Z.of_nat i) 0) as [H|H]; [lia|].
  destruct (Z.ltb_spec (Z.of_nat i) 0); [lia|].
  rewrite Nat2Z.id. reflexivity.
Qed.

End PyListFacts.

Module PyDictFacts.

Import PyDict.

Section Generic.
Context {V : Type}.
Implicit Types (d : PyDict.t V) (k : string) (v : V).

Lemma get_set_eq d k v : get (set d k v) k = Some v.
Proof.
  induction d as [|[k' v'] d IH]; simpl.
  - rewrite String.eqb_refl. reflexivity.
  - destruct (String.eqb k' k) eqn:E; simpl; rewrite E; [reflexivity | exact IH].
Qed.

Lemma get_set_ne d k k' v : k <> k' -> get (set d k v) k' = get d k'.
Proof.
  intros ne. induction d as [|[k0 v0] d IH]; simpl.
  - apply String.eqb_neq in ne. rewrite ne. reflexivity.
  - destruct (String.eqb_spec k0 k) as [->|n0]; simpl.
    + apply String.eqb_neq in ne. rewrite ne. reflexivity.
    + rewrite IH. reflexivity.
Qed.

Lemma update_single d k v : update d [(k, v)] = set d k v.
Proof. reflexivity. Qed.

Lemma get_in_keys d k : In k (keys d) <-> get d k <> None.
Proof.
  induction d as [|[k' v'] d IH]; simpl.
  - split; [contradiction | congruence].
  - destruct (String.eqb_spec k' k) as [->|ne].
    + split; [discriminate | auto].
    + rewrite <- IH. split; [intros [H|H]; [contradiction | exact H] | auto].
Qed.

(** Writing bindings one after the other: the last one written under a
    key is the one found there. *)
Lemma get_fold_set_last {A} (key : A -> string) (val : A -> V)
    (pre post : list A) (x : A) d :
  (forall y, In y post -> key y <> key x) ->
  get (fold_left (fun acc y => set acc (key y) (val y)) (pre ++ x :: post) d)
      (key x) = Some (val x).
Proof.
  intros Hpost. rewrite fold_left_app. simpl.
  generalize (fold_left (fun acc y => set acc (key y) (val y)) pre d).
  intros d0.
  assert (H : get (set d0 (key x) (val x)) (key x) = Some (val x))
    by apply get_set_eq.
  revert H. generalize (set d0 (key x) (val x)). clear d0.
  induction post as [|y post IH]; intros d0 H; simpl; [exact H|].
  apply IH.
  - intros z Hz. apply Hpost. right. exact Hz.
  - rewrite get_set_ne; [exact H | apply Hpost; left; reflexivity].
Qed.

(** A key never written keeps what it had. *)
Lemma get_fold_set_other {A} (key : A -> string) (val : A -> V)
    (l : list A) k d :
  (forall y, In y l -> key y <> k) ->
  get (fold_left (fun acc y => set acc (key y) (val y)) l d) k = get d k.
Proof.
  revert d. induction l as [|y l IH]; intros d H; simpl; [reflexivity|].
  rewrite IH by (intros z Hz; apply H; right; exact Hz).
  apply get_set_ne, H. left. reflexivity.
Qed.

End Generic.

End PyDictFacts.

(** * Properties of the module *)

Module OdgiFacts.

Import PyStr PyList PyDict Odgi PyStrFacts PyListFacts PyDictFacts.

Section Properties.

Context {F : Type}.
Variable float_of_str : string -> option F.

Implicit Types (s : state F) (m : dict F) (fn id : string) (lf : log_file).

(** *** Sequencing *)

Lemma bind_ok {A B} (c : Py F A) (k : A -> Py F B) s s' a :
  c s = (s', Ok a) -> bind c k s = k a s'.
Proof. unfold bind. intros ->. reflexivity. Qed.

Lemma bind_raise {A B} (c : Py F A) (k : A -> Py F B) s s' e :
  c s = (s', Raise e) -> bind c k s = (s', Raise e).
Proof. unfold bind. intros ->. reflexivity. Qed.

Lemma bind_get_map {B} (k : dict F -> Py F B) s :
  bind get_odgi_stats_map k s = k (odgi_stats_map s) s.
Proof. reflexivity. Qed.

Lemma bind_subscript {B} (d : dict F) key (k : value F -> Py F B) s :
  bind (subscript (VDict d) key) k s =
    match PyDict.get d key with
    | Some v => k v s
    | None => (s, Raise (KeyError key))
    end.
Proof. unfold bind, subscript. destruct (PyDict.get d key); reflexivity. Qed.

(** *** Loops *)

(** A loop in which every round returns normally or raises [e], without
    touching the state, and some round raises [e], raises [e]. *)
Lemma for_each_raise {A S} (l : list A) (body : A -> S -> Py F S)
    (e : exn) s (acc : S) :
  (forall x a, In x l ->
     (exists a', body x a s = (s, Ok a')) \/ body x a s = (s, Raise e)) ->
  (exists x, In x l /\ forall a, body x a s = (s, Raise e)) ->
  for_each l acc body s = (s, Raise e).
Proof.
  revert acc. induction l as [|x l IH]; intros acc Hall (x0 & Hin & Hx0).
  - contradiction.
  - simpl. unfold bind.
    destruct (Hall x acc (or_introl eq_refl)) as [(a' & E) | E]; rewrite E;
      [|reflexivity].
    destruct Hin as [->|Hin].
    + rewrite Hx0 in E. discriminate.
    + apply IH; [|eauto]. intros y a Hy. apply Hall. right. exact Hy.
Qed.

(** *** [strip_file_name] *)

Lemma filter_head_find {A} (p : A -> bool) (l : list A) :
  nth_error (filter p l) 0 = find p l.
Proof.
  induction l as [|x l IH]; simpl; [reflexivity|].
  destruct (p x); [reflexivity | exact IH].
Qed.

Lemma getitem_nat {A} (l : list A) (i : nat) s :
  getitem l (Z.of_nat i) s = match nth_error l i with
                             | Some x => (s, Ok x)
                             | None => (s, Raise IndexError)
                             end.
Proof.
  unfold getitem. rewrite item_nat. destruct (nth_error l i); reflexivity.
Qed.

Lemma getitem_0 {A} (l : list A) s :
  getitem l 0 s = match nth_error l 0 with
                  | Some x => (s, Ok x)
                  | None => (s, Raise IndexError)
                  end.
Proof. exact (getitem_nat l 0 s). Qed.

Lemma strip_file_name_ok fn id s :
  deriveId_spec fn = Some id -> strip_file_name fn s = (s, Ok id).
Proof.
  unfold deriveId_spec, strip_file_name.
  destruct (contains "seqwish.og" fn); [intros [= <-]; reflexivity|].
  destruct (contains "smooth" fn); [intros [= <-]; reflexivity|].
  intros H. unfold try_except. rewrite getitem_0, filter_head_find, H.
  reflexivity.
Qed.

Lemma strip_file_name_exit fn s :
  deriveId_spec fn = None ->
  strip_file_name fn s =
    (with_call s (LogError unknown_file_name), Raise (SystemExit 1)).
Proof.
  unfold deriveId_spec, strip_file_name.
  destruct (contains "seqwish.og" fn); [discriminate|].
  destruct (contains "smooth" fn); [discriminate|].
  intros H. unfold try_except. rewrite getitem_0, filter_head_find, H.
  reflexivity.
Qed.

(** *** Extraction *)

Lemma bind_getitem_nat {A B} (l : list A) (i : nat) (k : A -> Py F B) s :
  bind (getitem l (Z.of_nat i)) k s =
    match nth_error l i with
    | Some x => k x s
    | None => (s, Raise IndexError)
    end.
Proof.
  unfold bind. rewrite getitem_nat. destruct (nth_error l i); reflexivity.
Qed.

Lemma bind_float_str {B} (t : string) (k : F -> Py F B) s :
  bind (float float_of_str (VStr t)) k s =
    match float_of_str t with
    | Some x => k x s
    | None => (s, Raise ValueError)
    end.
Proof.
  unfold bind, float. destruct (float_of_str t); reflexivity.
Qed.

Ltac run_compress :=
  repeat (first [ rewrite bind_float_str
                | rewrite (bind_getitem_nat _ 0)
                | rewrite (bind_getitem_nat _ 1)
                | rewrite (bind_getitem_nat _ 2)
                | rewrite (bind_getitem_nat _ 3)
                | rewrite (bind_getitem_nat _ 4)
                | rewrite (bind_getitem_nat _ 5)
                | rewrite (bind_getitem_nat _ 6) ];
          cbn [nth_error];
          try match goal with
              | H : float_of_str _ = _ |- _ => rewrite H
              end;
          cbv beta iota).

Ltac fails_with e :=
  right; split;
  [ cbn; rewrite ?andb_false_r; reflexivity
  | exists e; split; [(left; reflexivity) || (right; reflexivity)
                     | intros ?; run_compress; reflexivity] ].

(** [compress_stats_data] either returns the report, when the token lists
    are as [fields_ok] has them, or raises a FormatError; it has no
    effect. *)
Lemma compress_cases fn (T1 T4 T7 : list string) :
  (fields_ok float_of_str T1 T4 T7 = true /\
   exists x0 x1 x2 x3,
     float_of_str (nth 0 T1 "") = Some x0 /\
     float_of_str (nth 1 T1 "") = Some x1 /\
     float_of_str (nth 2 T1 "") = Some x2 /\
     float_of_str (nth 3 T1 "") = Some x3 /\
     forall s, compress_stats_data float_of_str fn T1 T4 T7 s =
       (s, Ok [(fn, report fn (general_stats x0 x1 x2 x3) T4 T7)]))
  \/
  (fields_ok float_of_str T1 T4 T7 = false /\
   exists e, is_FormatError e /\
     forall s, compress_stats_data float_of_str fn T1 T4 T7 s = (s, Raise e)).
Proof.
  unfold fields_ok, numeric, report, general_stats, compress_stats_data,
    is_FormatError.
  destruct T1 as [|t0 T1]; [fails_with IndexError|]. cbn [nth].
  destruct (float_of_str t0) as [x0|] eqn:E0; [|fails_with ValueError].
  destruct T1 as [|t1 T1]; [fails_with IndexError|]. cbn [nth].
  destruct (float_of_str t1) as [x1|] eqn:E1; [|fails_with ValueError].
  destruct T1 as [|t2 T1]; [fails_with IndexError|]. cbn [nth].
  destruct (float_of_str t2) as [x2|] eqn:E2; [|fails_with ValueError].
  destruct T1 as [|t3 T1]; [fails_with IndexError|]. cbn [nth].
  destruct (float_of_str t3) as [x3|] eqn:E3; [|fails_with ValueError].
  do 4 (destruct T4 as [|? T4]; [fails_with IndexError|]).
  do 7 (destruct T7 as [|? T7]; [fails_with IndexError|]).
  left. split; [reflexivity|].
  exists x0, x1, x2, x3. repeat split. intros st. run_compress. reflexivity.
Qed.

Lemma parse_unfold lf s :
  parse_odgi_stats_report float_of_str lf s =
    match nth_error (splitlines (f lf)) 7 with
    | Some _ =>
        match compress_stats_data float_of_str (fn lf)
                (tokens (f lf) 1) (tokens (f lf) 4) (tokens (f lf) 7) s with
        | (s', Ok d) => (with_map s' (PyDict.update (odgi_stats_map s') d), Ok tt)
        | (s', Raise e) => (s', Raise e)
        end
    | None => (s, Raise IndexError)
    end.
Proof.
  unfold parse_odgi_stats_report, tokens.
  generalize (splitlines (f lf)). intros L.
  do 8 (destruct L as [|? L]; [reflexivity|]).
  reflexivity.
Qed.

(** Extraction either stores the report of the file, when the text is
    well formed, or raises a FormatError and leaves the instance as it
    was. *)
Lemma parse_cases lf :
  (well_formed float_of_str (f lf) = true /\
   exists x0 x1 x2 x3,
     float_of_str (token (f lf) 1 0) = Some x0 /\
     float_of_str (token (f lf) 1 1) = Some x1 /\
     float_of_str (token (f lf) 1 2) = Some x2 /\
     float_of_str (token (f lf) 1 3) = Some x3 /\
     forall s, parse_odgi_stats_report float_of_str lf s =
       (with_map s (PyDict.set (odgi_stats_map s) (fn lf)
          (file_report (fn lf) (f lf) (general_stats x0 x1 x2 x3))), Ok tt))
  \/
  (well_formed float_of_str (f lf) = false /\
   exists e, is_FormatError e /\
     forall s, parse_odgi_stats_report float_of_str lf s = (s, Raise e)).
Proof.
  unfold well_formed, token, file_report.
  destruct (Nat.leb 8 (List.length (splitlines (f lf)))) eqn:Len.
  - assert (exists l7, nth_error (splitlines (f lf)) 7 = Some l7) as (l7 & E7).
    { apply Nat.leb_le in Len.
      destruct (nth_error (splitlines (f lf)) 7) eqn:E; [eauto|].
      apply nth_error_None in E. lia. }
    destruct (compress_cases (fn lf) (tokens (f lf) 1) (tokens (f lf) 4)
                (tokens (f lf) 7))
      as [(Ok_ & x0 & x1 & x2 & x3 & E0 & E1 & E2 & E3 & H)
         | (Bad & e & He & H)].
    + left. split; [rewrite Ok_; reflexivity|].
      exists x0, x1, x2, x3. repeat split; try assumption.
      intros s. rewrite parse_unfold, E7, H. reflexivity.
    + right. split; [rewrite Bad; reflexivity|].
      exists e. split; [exact He|].
      intros s. rewrite parse_unfold, E7, H. reflexivity.
  - right. split; [reflexivity|].
    exists IndexError. split; [left; reflexivity|].
    intros s. rewrite parse_unfold.
    apply Nat.leb_gt in Len.
    assert (nth_error (splitlines (f lf)) 7 = None) as ->
      by (apply nth_error_None; lia).
    reflexivity.
Qed.

(** *** The summary table *)

Lemma general_round s fn id row (data : dict F) :
  deriveId_spec fn = Some id ->
  section_of (odgi_stats_map s) "General stats " fn = Some row ->
  (m <- get_odgi_stats_map ;;
   file_stats <- subscript (VDict m) fn ;;
   unique_file_identifier <- strip_file_name fn ;;
   row <- subscript file_stats (format1 "General stats " fn) ;;
   ret (PyDict.update data [(unique_file_identifier, row)])) s
  = (s, Ok (PyDict.set data id row)).
Proof.
  intros Hid Hrow. unfold section_of in Hrow.
  rewrite bind_get_map, bind_subscript.
  destruct (PyDict.get (odgi_stats_map s) fn) as [[x|t|file_stats]|];
    try discriminate.
  rewrite (bind_ok _ _ _ _ _ (strip_file_name_ok fn id s Hid)).
  rewrite bind_subscript, Hrow. reflexivity.
Qed.

Lemma plot_general_ok s (entries : list (string * value F)) :
  Forall2 (fun fn e => summary_entry (odgi_stats_map s) fn = Some e)
    (PyDict.keys (odgi_stats_map s)) entries ->
  plot_general_odgi_stats s =
    (with_call s (GeneralStatsAddcols (PyDict.update [] entries) summary_headers),
     Ok tt).
Proof.
  intros H. unfold plot_general_odgi_stats.
  rewrite bind_get_map.
  assert (L : forall (l : list string) es (data : dict F),
    Forall2 (fun fn e => summary_entry (odgi_stats_map s) fn = Some e) l es ->
    for_each l data (fun fn data =>
      m <- get_odgi_stats_map ;;
      file_stats <- subscript (VDict m) fn ;;
      unique_file_identifier <- strip_file_name fn ;;
      row <- subscript file_stats (format1 "General stats " fn) ;;
      ret (PyDict.update data [(unique_file_identifier, row)])) s
    = (s, Ok (PyDict.update data es))).
  { clear. intros l es data H. revert data.
    induction H as [|fn [id row] l es Hfn _ IH]; intros data; [reflexivity|].
    cbn [for_each]. unfold summary_entry in Hfn.
    destruct (deriveId_spec fn) as [id'|] eqn:Hid; [|discriminate].
    destruct (section_of (odgi_stats_map s) "General stats " fn) as [row'|]
      eqn:Hrow; [|discriminate].
    injection Hfn as -> ->.
    rewrite (bind_ok _ _ _ _ _ (general_round s fn id row data Hid Hrow)).
    apply IH. }
  rewrite (bind_ok _ _ _ _ _ (L _ _ _ H)). reflexivity.
Qed.

(** *** The chart series *)

Lemma bind_subscript_mean {B} fn g (T4 T7 : list string)
    (k : value F -> Py F B) s :
  bind (subscript (report fn g T4 T7) (format1 "Mean_links_length " fn)) k s =
    k (VDict [("Path", VStr (nth 0 T4 ""));
              ("In_node_space", VStr (nth 1 T4 ""));
              ("In_nucleotide_space", VStr (nth 2 T4 ""));
              ("Num_links_considered", VStr (nth 3 T4 ""))]) s.
Proof.
  unfold report. rewrite bind_subscript. unfold format1. cbn.
  rewrite String.eqb_refl. reflexivity.
Qed.

Lemma bind_subscript_sum {B} fn g (T4 T7 : list string)
    (k : value F -> Py F B) s :
  bind (subscript (report fn g T4 T7)
          (format1 "Sum_of_path_nodes_distances " fn)) k s =
    k (VDict [("Path", VStr (nth 0 T7 ""));
              ("In_node_space", VStr (nth 1 T7 ""));
              ("In_nucleotide_space", VStr (nth 2 T7 ""));
              ("Nodes", VStr (nth 3 T7 ""));
              ("Nucleotides", VStr (nth 4 T7 ""));
              ("Num_penalties", VStr (nth 5 T7 ""));
              ("Num_penalties_different_orientation", VStr (nth 6 T7 ""))]) s.
Proof.
  unfold report. rewrite bind_subscript. unfold format1. cbn.
  rewrite String.eqb_refl. reflexivity.
Qed.

Lemma section_general fn g (T4 T7 : list string) m :
  PyDict.get m fn = Some (report fn g T4 T7) ->
  section_of m "General stats " fn = Some g.
Proof.
  intros H. unfold section_of. rewrite H. unfold report, format1. cbn.
  rewrite String.eqb_refl. reflexivity.
Qed.

(** One round of the loop of [plot_odgi_metrics] on a file whose report is
    in the store: the four tokens are converted in turn, and the first that
    is not numeric raises [ValueError]. *)
Lemma metrics_round s fn text g id (acc : series F) :
  PyDict.get (odgi_stats_map s) fn = Some (file_report fn text g) ->
  deriveId_spec fn = Some id ->
  metrics_body float_of_str fn acc s =
    match float_of_str (token text 4 1), float_of_str (token text 4 2),
          float_of_str (token text 7 1), float_of_str (token text 7 2) with
    | Some a, Some b, Some c, Some d => (s, Ok (series_set acc id a b c d))
    | _, _, _, _ => (s, Raise ValueError)
    end.
Proof.
  intros Hget Hid. unfold metrics_body, file_report, token in *.
  rewrite bind_get_map, bind_subscript, Hget.
  rewrite (bind_ok _ _ _ _ _ (strip_file_name_ok fn id s Hid)).
  rewrite bind_subscript_mean, bind_subscript.
  cbn [PyDict.get String.eqb Ascii.eqb Bool.eqb].
  rewrite bind_float_str.
  destruct (float_of_str (nth 1 (tokens text 4) "")) as [a|]; [|reflexivity].
  rewrite bind_subscript_mean, bind_subscript.
  cbn [PyDict.get String.eqb Ascii.eqb Bool.eqb].
  rewrite bind_float_str.
  destruct (float_of_str (nth 2 (tokens text 4) "")) as [b|]; [|reflexivity].
  rewrite bind_subscript_sum, bind_subscript.
  cbn [PyDict.get String.eqb Ascii.eqb Bool.eqb].
  rewrite bind_float_str.
  destruct (float_of_str (nth 1 (tokens text 7) "")) as [c|]; [|reflexivity].
  rewrite bind_subscript_sum, bind_subscript.
  cbn [PyDict.get String.eqb Ascii.eqb Bool.eqb].
  rewrite bind_float_str.
  destruct (float_of_str (nth 2 (tokens text 7) "")) as [d|]; reflexivity.
Qed.

Lemma chart_entry_report m fn text g :
  PyDict.get m fn = Some (file_report fn text g) ->
  chart_entry float_of_str m fn =
    match deriveId_spec fn,
          float_of_str (token text 4 1), float_of_str (token text 4 2),
          float_of_str (token text 7 1), float_of_str (token text 7 2) with
    | Some id, Some a, Some b, Some c, Some d => Some (id, a, b, c, d)
    | _, _, _, _, _ => None
    end.
Proof.
  intros H. unfold chart_entry, chart_value, section_of. rewrite H.
  unfold file_report, report, format1, token. cbn.
  rewrite !String.eqb_refl. reflexivity.
Qed.

Lemma metrics_round_entry s fn text g (acc : series F) :
  PyDict.get (odgi_stats_map s) fn = Some (file_report fn text g) ->
  deriveId_spec fn <> None ->
  metrics_body float_of_str fn acc s =
    match chart_entry float_of_str (odgi_stats_map s) fn with
    | Some e => (s, Ok (series_step acc e))
    | None => (s, Raise ValueError)
    end.
Proof.
  intros Hget Hid.
  destruct (deriveId_spec fn) as [id|] eqn:E; [clear Hid | contradiction].
  rewrite (metrics_round s fn text g id acc Hget E).
  rewrite (chart_entry_report _ _ _ _ Hget), E.
  destruct (float_of_str (token text 4 1)); [|reflexivity].
  destruct (float_of_str (token text 4 2)); [|reflexivity].
  destruct (float_of_str (token text 7 1)); [|reflexivity].
  destruct (float_of_str (token text 7 2)); reflexivity.
Qed.

Lemma metrics_loop_ok s (L : list string) entries (acc : series F) :
  (forall fn, In fn L -> deriveId_spec fn <> None /\
     exists text g,
       PyDict.get (odgi_stats_map s) fn = Some (file_report fn text g)) ->
  Forall2 (fun fn e => chart_entry float_of_str (odgi_stats_map s) fn = Some e)
    L entries ->
  for_each L acc (metrics_body float_of_str) s =
    (s, Ok (fold_left series_step entries acc)).
Proof.
  intros Hall H. revert acc.
  induction H as [|fn e L entries He _ IH]; intros acc; [reflexivity|].
  cbn [for_each fold_left].
  destruct (Hall fn (or_introl eq_refl)) as (Hid & text & g & Hget).
  assert (R := metrics_round_entry s fn text g acc Hget Hid).
  rewrite He in R. rewrite (bind_ok _ _ _ _ _ R).
  apply IH. intros fn' Hin. apply Hall. right. exact Hin.
Qed.

Lemma metrics_loop_raise s (L : list string) (acc : series F) :
  (forall fn, In fn L -> deriveId_spec fn <> None /\
     exists text g,
       PyDict.get (odgi_stats_map s) fn = Some (file_report fn text g)) ->
  (exists fn, In fn L /\ chart_entry float_of_str (odgi_stats_map s) fn = None) ->
  for_each L acc (metrics_body float_of_str) s = (s, Raise ValueError).
Proof.
  intros Hall Hbad. apply for_each_raise.
  - intros fn a Hin. destruct (Hall fn Hin) as (Hid & text & g & Hget).
    rewrite (metrics_round_entry s fn text g a Hget Hid).
    destruct (chart_entry float_of_str (odgi_stats_map s) fn); eauto.
  - destruct Hbad as (fn & Hin & Hnone). exists fn. split; [exact Hin|].
    intros a. destruct (Hall fn Hin) as (Hid & text & g & Hget).
    rewrite (metrics_round_entry s fn text g a Hget Hid), Hnone. reflexivity.
Qed.

(** The four dictionaries after the loop, each as the writes made to it. *)
Lemma fold_series_step entries (acc : series F) :
  let r := fold_left series_step entries acc in
  mean_links_length_nodes_space r =
    PyDict.update (mean_links_length_nodes_space acc)
      (map (fun '(id, a, b, c, d) => (id, VFloat a)) entries) /\
  mean_links_length_nucleotide_space r =
    PyDict.update (mean_links_length_nucleotide_space acc)
      (map (fun '(id, a, b, c, d) => (id, VFloat b)) entries) /\
  sum_of_path_nodes_distances_nodes_space r =
    PyDict.update (sum_of_path_nodes_distances_nodes_space acc)
      (map (fun '(id, a, b, c, d) => (id, VFloat c)) entries) /\
  sum_of_path_nodes_distances_nucleotide_space r =
    PyDict.update (sum_of_path_nodes_distances_nucleotide_space acc)
      (map (fun '(id, a, b, c, d) => (id, VFloat d)) entries).
Proof.
  revert acc. induction entries as [|[[[[id a] b] c] d] entries IH]; intros acc.
  - repeat split.
  - cbn [fold_left map]. destruct (IH (series_step acc (id, a, b, c, d)))
      as (H1 & H2 & H3 & H4).
    cbv zeta. rewrite H1, H2, H3, H4. repeat split.
Qed.

(** *** The order of the chart loop *)

Lemma sorted_filenames_eq m :
  sorted_filenames m =
    skipn (List.length (PyDict.keys m) - 2) (sorted (PyDict.keys m)) ++
    firstn (List.length (PyDict.keys m) - 2) (sorted (PyDict.keys m)).
Proof.
  unfold sorted_filenames. rewrite slice_last_two, slice_but_last_two.
  rewrite <- (Permutation_length (sorted_perm (PyDict.keys m))). reflexivity.
Qed.

Lemma sorted_filenames_perm m : Permutation (sorted_filenames m) (PyDict.keys m).
Proof.
  rewrite sorted_filenames_eq, Permutation_app_comm, firstn_skipn.
  symmetry. apply sorted_perm.
Qed.

Lemma sorted_filenames_in m name :
  In name (sorted_filenames m) <-> In name (PyDict.keys m).
Proof.
  split; apply Permutation_in;
    [apply sorted_filenames_perm | symmetry; apply sorted_filenames_perm].
Qed.

Lemma sorted_filenames_last_two m rest x y :
  sorted (PyDict.keys m) = rest ++ [x; y] ->
  sorted_filenames m = x :: y :: rest.
Proof.
  intros H. rewrite sorted_filenames_eq.
  rewrite (Permutation_length (sorted_perm (PyDict.keys m))), H.
  rewrite length_app. cbn [List.length].
  replace (List.length rest + 2 - 2) with (List.length rest + 0) by lia.
  rewrite skipn_app, firstn_app.
  rewrite skipn_all2, firstn_all2 by lia.
  replace (List.length rest + 0 - List.length rest) with 0 by lia.
  cbn. rewrite app_nil_r. reflexivity.
Qed.

Lemma sorted_filenames_short m :
  List.length (PyDict.keys m) < 2 ->
  sorted_filenames m = sorted (PyDict.keys m).
Proof.
  intros H. rewrite sorted_filenames_eq.
  replace (List.length (PyDict.keys m) - 2) with 0 by lia.
  cbn. apply app_nil_r.
Qed.

(** *** The invariant of the store *)

Lemma keys_set_in {V} (d : PyDict.t V) k v name :
  In name (PyDict.keys (PyDict.set d k v)) -> name = k \/ In name (PyDict.keys d).
Proof.
  intros H. destruct (string_dec k name) as [->|ne]; [left; reflexivity|].
  right. apply get_in_keys. apply get_in_keys in H.
  rewrite get_set_ne in H; assumption.
Qed.

Lemma from_extraction_set m lf v :
  from_extraction float_of_str m ->
  extracted_report float_of_str lf v ->
  from_extraction float_of_str (PyDict.set m (fn lf) v).
Proof.
  intros Inv Hv name Hin.
  destruct (string_dec (fn lf) name) as [E|ne].
  - exists lf. split; [exact E|]. exists v. split; [apply get_set_eq | exact Hv].
  - apply keys_set_in in Hin. destruct Hin as [->|Hin]; [contradiction|].
    destruct (Inv name Hin) as (lf' & E & v' & Hget & Hv').
    exists lf'. split; [exact E|]. exists v'. split; [|exact Hv'].
    rewrite E, get_set_ne; [rewrite <- E; exact Hget | exact ne].
Qed.

Lemma derivable_set m k (v : value F) :
  derivable m -> deriveId_spec k <> None -> derivable (PyDict.set m k v).
Proof.
  intros D Hk name Hin. apply keys_set_in in Hin.
  destruct Hin as [->|Hin]; [exact Hk | apply D; exact Hin].
Qed.

(** Under the invariant every name of the store leads to a report. *)
Lemma from_extraction_get m name :
  from_extraction float_of_str m -> In name (PyDict.keys m) ->
  exists text g, PyDict.get m name = Some (file_report name text g).
Proof.
  intros Inv Hin.
  destruct (Inv name Hin)
    as (lf & <- & v & Hget & x0 & x1 & x2 & x3 & _ & _ & _ & _ & ->).
  eauto.
Qed.

Lemma forall_exists_Forall2 {A B} (R : A -> B -> Prop) (l : list A) :
  (forall x, In x l -> exists y, R x y) -> exists l', Forall2 R l l'.
Proof.
  induction l as [|x l IH]; intros H.
  - exists []. constructor.
  - destruct (H x (or_introl eq_refl)) as (y & Hy).
    destruct IH as (l' & Hl'); [intros z Hz; apply H; right; exact Hz|].
    exists (y :: l'). constructor; assumption.
Qed.

(** The loop of [__init__] over the reports found keeps the invariant. *)
Lemma parse_loop_from_extraction (found : list log_file) s s' :
  for_each found tt (fun lf _ =>
    parse_odgi_stats_report float_of_str lf ;; host (AddDataSource lf)) s
  = (s', Ok tt) ->
  from_extraction float_of_str (odgi_stats_map s) ->
  from_extraction float_of_str (odgi_stats_map s').
Proof.
  revert s. induction found as [|lf found IH]; intros s H Inv.
  - injection H as <-. exact Inv.
  - cbn [for_each] in H. unfold bind at 1 2 in H.
    destruct (parse_cases lf)
      as [(_ & x0 & x1 & x2 & x3 & E0 & E1 & E2 & E3 & P) | (_ & e & _ & P)];
      rewrite P in H; [|discriminate].
    cbn [host] in H. apply IH in H; [exact H|].
    cbn [odgi_stats_map with_map]. apply from_extraction_set; [exact Inv|].
    exists x0, x1, x2, x3. repeat split; assumption.
Qed.

Lemma find_none_forall {A} (p : A -> bool) (l : list A) :
  (forall x, In x l -> p x = false) -> find p l = None.
Proof.
  induction l as [|x l IH]; intros H; [reflexivity|]. simpl.
  rewrite (H x (or_introl eq_refl)). apply IH.
  intros y Hy. apply H. right. exact Hy.
Qed.

Lemma find_first {A} (p : A -> bool) (before after : list A) (e : A) :
  (forall x, In x before -> p x = false) -> p e = true ->
  find p (before ++ e :: after) = Some e.
Proof.
  intros Hb He. induction before as [|x before IH]; simpl.
  - rewrite He. reflexivity.
  - rewrite (Hb x (or_introl eq_refl)). apply IH.
    intros y Hy. apply Hb. right. exact Hy.
Qed.

Lemma update_nil_fold {V} (entries : list (string * V)) (d : PyDict.t V) :
  PyDict.update d entries =
    fold_left (fun acc e => PyDict.set acc (fst e) (snd e)) entries d.
Proof. reflexivity. Qed.

Lemma well_formed_true text :
  well_formed float_of_str text = true ->
  8 <= List.length (splitlines text) /\
  4 <= List.length (tokens text 1) /\
  4 <= List.length (tokens text 4) /\
  7 <= List.length (tokens text 7) /\
  forall j, j < 4 -> numeric float_of_str (token text 1 j) = true.
Proof.
  unfold well_formed, fields_ok, token. rewrite !andb_true_iff, !Nat.leb_le.
  intros (L & (((((T1 & T4) & T7) & N0) & N1) & N2) & N3).
  repeat (split; [assumption|]).
  intros j Hj. destruct j as [|[|[|[|j]]]]; [assumption.. | lia].
Qed.

Lemma last_two_exist {A} (l : list A) :
  2 <= List.length l -> exists rest x y, l = rest ++ [x; y].
Proof.
  intros H.
  destruct (exists_last (l := l)) as (l1 & y & ->);
    [intros ->; simpl in H; lia|].
  rewrite length_app in H. simpl in H.
  destruct (exists_last (l := l1)) as (rest & x & ->);
    [intros ->; simpl in H; lia|].
  exists rest, x, y. rewrite <- app_assoc. reflexivity.
Qed.

Lemma ordered_last_two (rest : list string) x y :
  StronglySorted le (rest ++ [x; y]) ->
  Forall (fun z => le z x) rest /\ le x y.
Proof.
  induction rest as [|z rest IH]; simpl; intros H.
  - split; [constructor|].
    apply StronglySorted_inv in H. destruct H as (_ & H).
    apply Forall_inv in H. exact H.
  - apply StronglySorted_inv in H. destruct H as (H & Hz).
    destruct (IH H) as (IH1 & IH2). split; [|exact IH2].
    constructor; [|exact IH1].
    rewrite Forall_forall in Hz. apply Hz.
    apply in_or_app. right. left. reflexivity.
Qed.

Lemma Forall2_in_r {A B} (R : A -> B -> Prop) (l : list A) (l' : list B) y :
  Forall2 R l l' -> In y l' -> exists x, In x l /\ R x y.
Proof.
  induction 1 as [|x y' l l' Hxy _ IH]; intros Hin; [contradiction|].
  destruct Hin as [->|Hin].
  - exists x. split; [left; reflexivity | exact Hxy].
  - destruct (IH Hin) as (x' & Hx' & Hr). exists x'. split; [right|]; assumption.
Qed.

Lemma chart_entry_id m name id a b c d :
  chart_entry float_of_str m name = Some (id, a, b, c, d) ->
  deriveId_spec name = Some id.
Proof.
  unfold chart_entry. destruct (deriveId_spec name); [|discriminate].
  repeat match goal with
         | |- context [match ?x with Some _ => _ | None => _ end] =>
             destruct x; [|discriminate]
         end.
  congruence.
Qed.

(** After the loop the identifier of a file stands, in each of the four
    series, for the values of the last file visited that derives it. *)
Lemma series_get_last m (pre post : list string) name entries id a b c d
    (acc : series F) :
  Forall2 (fun fn e => chart_entry float_of_str m fn = Some e)
    (pre ++ name :: post) entries ->
  chart_entry float_of_str m name = Some (id, a, b, c, d) ->
  (forall later, In later post -> deriveId_spec later <> Some id) ->
  let r := fold_left series_step entries acc in
  PyDict.get (mean_links_length_nodes_space r) id = Some (VFloat a) /\
  PyDict.get (mean_links_length_nucleotide_space r) id = Some (VFloat b) /\
  PyDict.get (sum_of_path_nodes_distances_nodes_space r) id = Some (VFloat c) /\
  PyDict.get (sum_of_path_nodes_distances_nucleotide_space r) id = Some (VFloat d).
Proof.
  intros Hentries He Hlater r.
  apply Forall2_app_inv_l in Hentries.
  destruct Hentries as (epre & epost' & _ & Hpost & ->).
  inversion Hpost as [|? e ? epost He' Hpost' E1 E2]; subst.
  rewrite He in He'. injection He' as <-.
  destruct (fold_series_step (epre ++ (id, a, b, c, d) :: epost) acc)
    as (H1 & H2 & H3 & H4).
  fold r in H1, H2, H3, H4. rewrite H1, H2, H3, H4.
  rewrite !update_nil_fold, !map_app. cbn [map].
  assert (Hother : forall (p : string * F * F * F * F -> string * value F),
            (forall e, fst (p e) = fst (fst (fst (fst e)))) ->
            forall y, In y (map p epost) -> fst y <> id).
  { intros p Hp y Hy. apply in_map_iff in Hy.
    destruct Hy as ([[[[id' a'] b'] c'] d'] & <- & Hin).
    rewrite Hp. cbn [fst]. intros ->.
    destruct (Forall2_in_r _ _ _ _ Hpost' Hin) as (later & Hl & Hle).
    apply chart_entry_id in Hle. exact (Hlater later Hl Hle). }
  repeat split.
  - apply (get_fold_set_last fst snd _ _ (id, VFloat a)).
    apply Hother. intros [[[[? ?] ?] ?] ?]. reflexivity.
  - apply (get_fold_set_last fst snd _ _ (id, VFloat b)).
    apply Hother. intros [[[[? ?] ?] ?] ?]. reflexivity.
  - apply (get_fold_set_last fst snd _ _ (id, VFloat c)).
    apply Hother. intros [[[[? ?] ?] ?] ?]. reflexivity.
  - apply (get_fold_set_last fst snd _ _ (id, VFloat d)).
    apply Hother. intros [[[[? ?] ?] ?] ?]. reflexivity.
Qed.

(** On a store of extracted reports whose names all have an identifier and
    the four chart values, the loop of [plot_odgi_metrics] returns. *)
Lemma metrics_series_ok s :
  from_extraction float_of_str (odgi_stats_map s) ->
  derivable (odgi_stats_map s) ->
  (forall name, In name (PyDict.keys (odgi_stats_map s)) ->
     chart_entry float_of_str (odgi_stats_map s) name <> None) ->
  exists entries,
    Forall2 (fun fn e => chart_entry float_of_str (odgi_stats_map s) fn = Some e)
      (sorted_filenames (odgi_stats_map s)) entries /\
    odgi_metrics_series float_of_str s =
      (s, Ok (fold_left series_step entries series_empty)).
Proof.
  intros Inv Der Chart.
  destruct (forall_exists_Forall2
              (fun fn e => chart_entry float_of_str (odgi_stats_map s) fn = Some e)
              (sorted_filenames (odgi_stats_map s)))
    as (entries & Hentries).
  { intros name Hin. apply sorted_filenames_in in Hin.
    specialize (Chart name Hin).
    destruct (chart_entry float_of_str (odgi_stats_map s) name);
      [eauto | contradiction]. }
  exists entries. split; [exact Hentries|].
  unfold odgi_metrics_series. rewrite bind_get_map.
  apply metrics_loop_ok; [|exact Hentries].
  intros name Hin. apply sorted_filenames_in in Hin.
  split; [apply Der; exact Hin | apply from_extraction_get; assumption].
Qed.

(** On a store of extracted reports whose names all have an identifier the
    summary table is built. *)
Lemma plot_general_from_extraction s :
  from_extraction float_of_str (odgi_stats_map s) ->
  derivable (odgi_stats_map s) ->
  exists data,
    plot_general_odgi_stats s =
      (with_call s (GeneralStatsAddcols data summary_headers), Ok tt).
Proof.
  intros Inv Der.
  destruct (forall_exists_Forall2
              (fun name e => summary_entry (odgi_stats_map s) name = Some e)
              (PyDict.keys (odgi_stats_map s)))
    as (entries & Hentries).
  { intros name Hin. unfold summary_entry.
    pose proof (Der name Hin) as Hid.
    destruct (deriveId_spec name) as [id|]; [|contradiction].
    destruct (from_extraction_get _ _ Inv Hin) as (text & g & Hget).
    unfold file_report in Hget. rewrite (section_general _ _ _ _ _ Hget).
    eauto. }
  eexists. apply plot_general_ok. exact Hentries.
Qed.

(** A report one of whose four chart tokens is not numeric has no chart
    values. *)
Lemma chart_entry_not_chartable m name text g :
  PyDict.get m name = Some (file_report name text g) ->
  chartable float_of_str text = false ->
  chart_entry float_of_str m name = None.
Proof.
  intros Hget Hc. rewrite (chart_entry_report _ _ _ _ Hget).
  unfold chartable, numeric in Hc.
  destruct (deriveId_spec name); [|reflexivity].
  destruct (float_of_str (token text 4 1)); [|reflexivity].
  destruct (float_of_str (token text 4 2)); [|reflexivity].
  destruct (float_of_str (token text 7 1)); [|reflexivity].
  destruct (float_of_str (token text 7 2)); [discriminate | reflexivity].
Qed.

Lemma metrics_series_raise s name text g :
  from_extraction float_of_str (odgi_stats_map s) ->
  derivable (odgi_stats_map s) ->
  PyDict.get (odgi_stats_map s) name = Some (file_report name text g) ->
  chartable float_of_str text = false ->
  odgi_metrics_series float_of_str s = (s, Raise ValueError).
Proof.
  intros Inv Der Hget Hc.
  unfold odgi_metrics_series. rewrite bind_get_map.
  apply metrics_loop_raise.
  - intros fn Hin. apply sorted_filenames_in in Hin.
    split; [apply Der; exact Hin | apply from_extraction_get; assumption].
  - exists name. split.
    + apply sorted_filenames_in, get_in_keys. rewrite Hget. discriminate.
    + eapply chart_entry_not_chartable; eassumption.
Qed.

End Properties.

End OdgiFacts.

(** * The claims of the specification *)

Module OdgiSpec.

#[local] Set Warnings "-inexact-float".

Import PyStr PyList PyDict Odgi Examples.
Import PyStrFacts PyListFacts PyDictFacts OdgiFacts.

(** ** Extraction *)

(** C1. For a well-formed record, extraction returns normally and stores
    under the name of the file a report whose general statistics are the
    [float] of the first four tab-separated tokens of line 1 of the text:
    Length, Nodes, Edges and Paths in this order.  It calls nothing of the
    host. *)
Theorem extraction_general_stats {F} (float_of_str : string -> option F)
    (lf : log_file) (s : state F) :
  well_formed float_of_str (f lf) = true ->
  exists Length Nodes Edges Paths s',
    float_of_str (token (f lf) 1 0) = Some Length /\
    float_of_str (token (f lf) 1 1) = Some Nodes /\
    float_of_str (token (f lf) 1 2) = Some Edges /\
    float_of_str (token (f lf) 1 3) = Some Paths /\
    parse_odgi_stats_report float_of_str lf s = (s', Ok tt) /\
    calls s' = calls s /\
    section_of (odgi_stats_map s') "General stats " (fn lf) =
      Some (general_stats Length Nodes Edges Paths) /\
    stored float_of_str (odgi_stats_map s') lf.
Proof.
  intros WF.
  destruct (parse_cases float_of_str lf)
    as [(_ & x0 & x1 & x2 & x3 & E0 & E1 & E2 & E3 & P) | (Bad & _)];
    [|congruence].
  exists x0, x1, x2, x3.
  exists (with_map s (PyDict.set (odgi_stats_map s) (fn lf)
            (file_report (fn lf) (f lf) (general_stats x0 x1 x2 x3)))).
  repeat (split; [assumption|]).
  split; [apply P|]. split; [reflexivity|]. cbn [odgi_stats_map with_map].
  split.
  - eapply section_general. unfold file_report. apply get_set_eq.
  - eexists. split; [apply get_set_eq|].
    exists x0, x1, x2, x3. repeat split; assumption.
Qed.

(** The report of the docstring, found under the name [x.seqwish.og.tsv]. *)
Lemma extraction_general_stats_docstring :
  well_formed Double.float_of_str docstring_text = true /\
  exists Length Nodes Edges Paths s',
    Double.float_of_str "8778" = Some Length /\
    Double.float_of_str "168" = Some Nodes /\
    Double.float_of_str "243" = Some Edges /\
    Double.float_of_str "35" = Some Paths /\
    parse_odgi_stats_report Double.float_of_str
      (record "x.seqwish.og.tsv" docstring_text) fresh = (s', Ok tt) /\
    calls s' = [] /\
    section_of (odgi_stats_map s') "General stats " "x.seqwish.og.tsv" =
      Some (general_stats Length Nodes Edges Paths) /\
    stored Double.float_of_str (odgi_stats_map s')
      (record "x.seqwish.og.tsv" docstring_text).
Proof.
  split; [vm_compute; reflexivity|].
  apply (extraction_general_stats Double.float_of_str
           (record "x.seqwish.og.tsv" docstring_text) fresh).
  vm_compute. reflexivity.
Defined.

(** C6. Extraction is all or nothing: on a text of fewer than eight lines,
    or with one of the first four tokens of line 1 not numeric, it raises a
    FormatError and the instance, its store included, is as before. *)
Theorem extraction_atomic {F} (float_of_str : string -> option F)
    (lf : log_file) (s : state F) :
  List.length (splitlines (f lf)) < 8 \/
  (exists j tok, j < 4 /\ nth_error (tokens (f lf) 1) j = Some tok /\
                 float_of_str tok = None) ->
  exists e, is_FormatError e /\
            parse_odgi_stats_report float_of_str lf s = (s, Raise e).
Proof.
  intros H.
  destruct (parse_cases float_of_str lf)
    as [(WF & _) | (_ & e & He & P)]; [exfalso | eauto].
  apply well_formed_true in WF. destruct WF as (L & _ & _ & _ & N).
  destruct H as [Short | (j & tok & Hj & Htok & Hnone)]; [lia|].
  specialize (N j Hj). unfold numeric, token in N.
  rewrite (nth_error_nth _ _ _ Htok), Hnone in N. discriminate.
Qed.

(** A text of three lines, with one report already in the store. *)
Lemma extraction_atomic_short_text :
  List.length (splitlines short_text) < 8 /\
  exists e, is_FormatError e /\
    parse_odgi_stats_report Double.float_of_str (record "x.smooth" short_text)
      (loaded one_seqwish) = (loaded one_seqwish, Raise e).
Proof.
  split; [vm_compute; lia|].
  apply (extraction_atomic Double.float_of_str (record "x.smooth" short_text)).
  left. vm_compute. lia.
Defined.

(** C7, as the module has it.  Extraction raises a FormatError, and leaves
    the instance as it was, whenever line 1 or line 4 has fewer than four
    tab-separated fields or line 7 fewer than seven (a line that is not
    there has none). *)
Theorem extraction_rejects_missing_fields {F} (float_of_str : string -> option F)
    (lf : log_file) (s : state F) (i expected : nat) :
  In (i, expected) [(1, 4); (4, 4); (7, 7)] ->
  List.length (tokens (f lf) i) < expected ->
  exists e, is_FormatError e /\
            parse_odgi_stats_report float_of_str lf s = (s, Raise e).
Proof.
  intros Hi Hlen.
  destruct (parse_cases float_of_str lf)
    as [(WF & _) | (_ & e & He & P)]; [exfalso | eauto].
  apply well_formed_true in WF. destruct WF as (_ & T1 & T4 & T7 & _).
  destruct Hi as [E | [E | [E | []]]]; injection E as <- <-; lia.
Qed.

(** A line 4 of three fields. *)
Lemma extraction_rejects_missing_fields_line4 :
  List.length (tokens missing_field_text 4) < 4 /\
  exists e, is_FormatError e /\
    parse_odgi_stats_report Double.float_of_str
      (record "x.smooth" missing_field_text) fresh = (fresh, Raise e).
Proof.
  split; [vm_compute; lia|].
  apply (extraction_rejects_missing_fields Double.float_of_str
           (record "x.smooth" missing_field_text) fresh 4 4).
  - right. left. reflexivity.
  - vm_compute. lia.
Defined.

(** C7 as stated fails: a line 1 of five fields does not have the expected
    four, and extraction returns normally, leaving the fifth out. *)
Lemma extraction_accepts_extra_fields :
  tokens extra_field_text 1 = ["8778"; "168"; "243"; "35"; "7"] /\
  exists s',
    parse_odgi_stats_report Double.float_of_str
      (record "x.smooth" extra_field_text) fresh = (s', Ok tt) /\
    section_of (odgi_stats_map s') "General stats " "x.smooth" =
      Some (general_stats 8778%float 168%float 243%float 35%float).
Proof.
  split; [vm_compute; reflexivity|].
  eexists. split; vm_compute; reflexivity.
Qed.

(** ** Group identifiers *)

(** C2. [strip_file_name] is a function of the file name alone and has no
    effect: it returns ["seqwish"] for a name containing [seqwish.og], else
    ["smooth"] for a name containing [smooth], else the first segment
    between dots that contains [consensus@]; that is the derivation of the
    specification, [deriveId_spec].  On the three names of the
    specification it returns [seqwish], [smooth] and [consensus@1]. *)
Theorem strip_file_name_derives :
  (forall F (s : state F) fn pre post,
     fn = (pre ++ "seqwish.og" ++ post)%string ->
     strip_file_name fn s = (s, Ok "seqwish")) /\
  (forall F (s : state F) fn pre post,
     contains "seqwish.og" fn = false ->
     fn = (pre ++ "smooth" ++ post)%string ->
     strip_file_name fn s = (s, Ok "smooth")) /\
  (forall F (s : state F) fn before e after,
     contains "seqwish.og" fn = false ->
     contains "smooth" fn = false ->
     split DOT fn = before ++ e :: after ->
     (forall x, In x before -> contains "consensus@" x = false) ->
     contains "consensus@" e = true ->
     strip_file_name fn s = (s, Ok e)) /\
  (forall F (s : state F) fn id,
     deriveId_spec fn = Some id -> strip_file_name fn s = (s, Ok id)) /\
  (forall F (s : state F),
     strip_file_name "sample.seqwish.og.tsv" s = (s, Ok "seqwish")) /\
  (forall F (s : state F),
     strip_file_name "sample.smooth.fa.tsv" s = (s, Ok "smooth")) /\
  (forall F (s : state F),
     strip_file_name "x.consensus@1.tsv" s = (s, Ok "consensus@1")).
Proof.
  split; [|split; [|split]].
  - intros F s fn pre post E. apply strip_file_name_ok.
    unfold deriveId_spec.
    rewrite (proj2 (contains_spec "seqwish.og" fn)) by eauto. reflexivity.
  - intros F s fn pre post N E. apply strip_file_name_ok.
    unfold deriveId_spec. rewrite N.
    rewrite (proj2 (contains_spec "smooth" fn)) by eauto. reflexivity.
  - intros F s fn before e after N1 N2 E Hbefore He.
    apply strip_file_name_ok. unfold deriveId_spec. rewrite N1, N2, E.
    apply find_first; assumption.
  - repeat split; intros; apply strip_file_name_ok;
      [assumption | reflexivity..].
Qed.

(** The name of a consensus graph with further segments after the
    identifier. *)
Lemma strip_file_name_derives_consensus :
  split DOT "run7.consensus@12.og.tsv" = ["run7"] ++ "consensus@12" :: ["og"; "tsv"] /\
  strip_file_name "run7.consensus@12.og.tsv" (loaded one_seqwish) =
    (loaded one_seqwish, Ok "consensus@12").
Proof.
  split; [reflexivity|].
  apply (proj1 (proj2 (proj2 strip_file_name_derives)) Double.F
           (loaded one_seqwish) "run7.consensus@12.og.tsv"
           ["run7"] "consensus@12" ["og"; "tsv"]).
  - reflexivity.
  - reflexivity.
  - reflexivity.
  - intros x [<- | []]. reflexivity.
  - reflexivity.
Defined.

(** C3. On a name that contains neither [seqwish.og] nor [smooth] and has
    no segment between dots containing [consensus@], [strip_file_name]
    logs the error on the unknown file name and exits with a status that is
    not zero; it returns no identifier. *)
Theorem strip_file_name_unknown {F} (s : state F) (fn : string) :
  contains "seqwish.og" fn = false ->
  contains "smooth" fn = false ->
  (forall e, In e (split DOT fn) -> contains "consensus@" e = false) ->
  (exists status, status <> 0%Z /\
     strip_file_name fn s =
       (with_call s (LogError unknown_file_name), Raise (SystemExit status))) /\
  (forall s' id, strip_file_name fn s <> (s', Ok id)).
Proof.
  intros H1 H2 H3.
  assert (deriveId_spec fn = None) as N.
  { unfold deriveId_spec. rewrite H1, H2. apply find_none_forall. exact H3. }
  rewrite (strip_file_name_exit fn s N). split.
  - exists 1%Z. split; [discriminate | reflexivity].
  - intros s' id. discriminate.
Qed.

(** The name [random_name.tsv] of the specification. *)
Lemma strip_file_name_unknown_random_name :
  (exists status, status <> 0%Z /\
     strip_file_name "random_name.tsv" (@fresh Double.F) =
       (with_call fresh (LogError unknown_file_name),
        Raise (SystemExit status))) /\
  (forall s' id, strip_file_name "random_name.tsv" (@fresh Double.F) <> (s', Ok id)).
Proof.
  apply (strip_file_name_unknown (@fresh Double.F) "random_name.tsv").
  - reflexivity.
  - reflexivity.
  - intros e H. vm_compute in H.
    destruct H as [<- | [<- | []]]; reflexivity.
Defined.

(** ** The order of the chart loop *)

(** C4, as the module has it.  The loop of [plot_odgi_metrics] visits the
    file names of the store in this order: the names sorted, with the last
    two of the sorted names, the two greatest, taken to the front in their
    sorted order (the greatest second) and the others after them as
    sorted.  On the store of the names [a.seqwish.og], [b.smooth],
    [c.consensus@1] it visits [b.smooth], [c.consensus@1], [a.seqwish.og],
    and the series come out in that order of identifiers. *)
Theorem series_order :
  (forall F (m : dict F),
     let names := sorted (keys m) in
     Permutation names (keys m) /\
     StronglySorted le names /\
     (2 <= List.length (keys m) -> exists rest x y, names = rest ++ [x; y]) /\
     (forall rest x y, names = rest ++ [x; y] ->
        Forall (fun z => le z x) rest /\ le x y /\
        sorted_filenames m = x :: y :: rest)) /\
  (forall F (m : dict F),
     keys m = ["a.seqwish.og"; "b.smooth"; "c.consensus@1"] ->
     sorted_filenames m = ["b.smooth"; "c.consensus@1"; "a.seqwish.og"]) /\
  (exists r,
     odgi_metrics_series Double.float_of_str (loaded three_stages) =
       (loaded three_stages, Ok r) /\
     keys (mean_links_length_nodes_space r) =
       ["smooth"; "consensus@1"; "seqwish"] /\
     keys (mean_links_length_nucleotide_space r) =
       ["smooth"; "consensus@1"; "seqwish"] /\
     keys (sum_of_path_nodes_distances_nodes_space r) =
       ["smooth"; "consensus@1"; "seqwish"] /\
     keys (sum_of_path_nodes_distances_nucleotide_space r) =
       ["smooth"; "consensus@1"; "seqwish"]).
Proof.
  split; [|split].
  - intros F m names. subst names.
    split; [symmetry; apply sorted_perm|].
    split; [apply sorted_ordered|].
    split.
    + intros H. apply last_two_exist.
      rewrite <- (Permutation_length (sorted_perm (keys m))). exact H.
    + intros rest x y H.
      pose proof (sorted_ordered (keys m)) as S. rewrite H in S.
      destruct (ordered_last_two rest x y S) as (S1 & S2).
      repeat split; [exact S1 | exact S2 |].
      apply sorted_filenames_last_two. exact H.
  - intros F m H. unfold sorted_filenames. rewrite H. reflexivity.
  - eexists. split; [vm_compute; reflexivity|].
    repeat split.
Qed.

(** The store of the three stages. *)
Lemma series_order_three_stages :
  keys (odgi_stats_map (loaded three_stages)) =
    ["a.seqwish.og"; "b.smooth"; "c.consensus@1"] /\
  sorted (keys (odgi_stats_map (loaded three_stages))) =
    ["a.seqwish.og"] ++ ["b.smooth"; "c.consensus@1"] /\
  sorted_filenames (odgi_stats_map (loaded three_stages)) =
    ["b.smooth"; "c.consensus@1"; "a.seqwish.og"].
Proof.
  split; [vm_compute; reflexivity|].
  split; [vm_compute; reflexivity|].
  apply (proj2 (proj2 (proj2
           (proj1 series_order Double.F (odgi_stats_map (loaded three_stages)))))
           ["a.seqwish.og"] "b.smooth" "c.consensus@1").
  vm_compute. reflexivity.
Defined.

(** C4 as stated fails on its own example: on the store of the names
    [a.seqwish.og], [b.smooth], [c.consensus@1] the two greatest names do
    come first, but [b.smooth] before [c.consensus@1], not
    [c.consensus@1] before [b.smooth]; so do their identifiers in the
    series. *)
Lemma series_order_greatest_second :
  keys (odgi_stats_map (loaded three_stages)) =
    ["a.seqwish.og"; "b.smooth"; "c.consensus@1"] /\
  sorted_filenames (odgi_stats_map (loaded three_stages)) =
    ["b.smooth"; "c.consensus@1"; "a.seqwish.og"] /\
  sorted_filenames (odgi_stats_map (loaded three_stages)) <>
    ["c.consensus@1"; "b.smooth"; "a.seqwish.og"] /\
  exists r,
    odgi_metrics_series Double.float_of_str (loaded three_stages) =
      (loaded three_stages, Ok r) /\
    keys (mean_links_length_nodes_space r) =
      ["smooth"; "consensus@1"; "seqwish"] /\
    keys (mean_links_length_nodes_space r) <>
      ["consensus@1"; "smooth"; "seqwish"].
Proof.
  split; [vm_compute; reflexivity|].
  split; [vm_compute; reflexivity|].
  split; [vm_compute; discriminate|].
  eexists. split; [vm_compute; reflexivity|].
  split; [vm_compute; reflexivity | vm_compute; discriminate].
Qed.

(** C10. The reordering is defined on stores of every size: the names it
    yields are those of the store, each as often; with fewer than two
    names they are the sorted names, and on the empty store the loop
    returns at once with the four series empty. *)
Theorem series_order_small_store {F} (float_of_str : string -> option F)
    (s : state F) :
  let m := odgi_stats_map s in
  Permutation (sorted_filenames m) (keys m) /\
  (List.length (keys m) < 2 -> sorted_filenames m = sorted (keys m)) /\
  (m = [] -> odgi_metrics_series float_of_str s = (s, Ok series_empty)).
Proof.
  intros m. split; [apply sorted_filenames_perm|].
  split; [apply sorted_filenames_short|].
  subst m. intros E. unfold odgi_metrics_series.
  rewrite bind_get_map, E. reflexivity.
Qed.

(** A store of one file. *)
Lemma series_order_small_store_one_file :
  List.length (keys (odgi_stats_map (loaded one_seqwish))) < 2 /\
  sorted_filenames (odgi_stats_map (loaded one_seqwish)) = ["x.seqwish.og.tsv"] /\
  sorted (keys (odgi_stats_map (loaded one_seqwish))) = ["x.seqwish.og.tsv"].
Proof.
  split; [vm_compute; lia|].
  split; [|vm_compute; reflexivity].
  rewrite (proj1 (proj2 (series_order_small_store Double.float_of_str
                           (loaded one_seqwish)))).
  - vm_compute. reflexivity.
  - vm_compute. lia.
Defined.

(** ** The summary table *)

(** C5. When every name of the store has an identifier and a row of
    general statistics, [plot_general_odgi_stats] returns normally and hands
    the host one table keyed by identifier: under an identifier stands the
    row of the last name, in the order of the store, that derives it,
    whatever was written there before, and an identifier that no name
    derives has no row. *)
Theorem summary_table_last_write_wins {F} (s : state F) :
  let m := odgi_stats_map s in
  (forall name, In name (keys m) ->
     deriveId_spec name <> None /\ section_of m "General stats " name <> None) ->
  exists data,
    plot_general_odgi_stats s =
      (with_call s (GeneralStatsAddcols data summary_headers), Ok tt) /\
    (forall pre name post id,
       keys m = pre ++ name :: post ->
       deriveId_spec name = Some id ->
       (forall later, In later post -> deriveId_spec later <> Some id) ->
       get data id = section_of m "General stats " name) /\
    (forall id,
       (forall name, In name (keys m) -> deriveId_spec name <> Some id) ->
       get data id = None).
Proof.
  intros m Hall.
  destruct (forall_exists_Forall2
              (fun name e => summary_entry m name = Some e) (keys m))
    as (entries & Hentries).
  { intros name Hin. destruct (Hall name Hin) as (Hid & Hrow).
    unfold summary_entry.
    destruct (deriveId_spec name) as [id|]; [|contradiction].
    destruct (section_of m "General stats " name) as [row|]; [|contradiction].
    eauto. }
  exists (update [] entries).
  split; [apply plot_general_ok; exact Hentries|].
  rewrite update_nil_fold. split.
  - intros pre name post id Hkeys Hid Hlater.
    rewrite Hkeys in Hentries.
    apply Forall2_app_inv_l in Hentries.
    destruct Hentries as (epre & epost' & _ & Hpost & ->).
    inversion Hpost as [|? e ? epost He Hpost' E1 E2]; subst.
    unfold summary_entry in He. rewrite Hid in He.
    destruct (section_of m "General stats " name) as [row|]; [|discriminate].
    injection He as <-.
    apply (get_fold_set_last fst snd epre epost (id, row)).
    intros [id' row'] Hin Eid. cbn [fst] in Eid. subst id'.
    destruct (Forall2_in_r _ _ _ _ Hpost' Hin) as (later & Hl & Hle).
    unfold summary_entry in Hle.
    destruct (deriveId_spec later) as [id''|] eqn:E; [|discriminate].
    destruct (section_of m "General stats " later); [|discriminate].
    injection Hle as -> _. exact (Hlater later Hl E).
  - intros id Hnone.
    rewrite (get_fold_set_other fst snd entries id); [reflexivity|].
    intros [id' row'] Hin Eid. cbn [fst] in Eid. subst id'.
    destruct (Forall2_in_r _ _ _ _ Hentries Hin) as (name & Hn & Hne).
    unfold summary_entry in Hne.
    destruct (deriveId_spec name) as [id''|] eqn:E; [|discriminate].
    destruct (section_of m "General stats " name); [|discriminate].
    injection Hne as -> _. exact (Hnone name Hn E).
Qed.

(** Two files of the smoothed graph: the row under [smooth] is that of the
    second. *)
Lemma summary_table_two_smooth :
  exists data,
    plot_general_odgi_stats (loaded two_smooth) =
      (with_call (loaded two_smooth) (GeneralStatsAddcols data summary_headers),
       Ok tt) /\
    get data "smooth" =
      Some (general_stats 9000%float 170%float 250%float 36%float).
Proof.
  destruct (summary_table_last_write_wins (loaded two_smooth))
    as (data & Hplot & Hlast & _).
  - intros name H. vm_compute in H.
    destruct H as [<- | [<- | []]]; split; vm_compute; discriminate.
  - exists data. split; [exact Hplot|].
    rewrite (Hlast ["a.smooth.tsv"] "b.smooth.tsv" [] "smooth").
    + vm_compute. reflexivity.
    + vm_compute. reflexivity.
    + reflexivity.
    + intros later [].
Defined.

(** ** The chart series *)

(** C8, as the module has it.  On a store of extracted reports whose names
    all have an identifier and numeric chart tokens, [plot_odgi_metrics]
    hands the host four series, [in_node_space_mean],
    [in_nucleotide_space_mean], [in_node_space_sum] and
    [in_nucleotide_space_sum]; for a file that no file visited after it
    shares its identifier with, they map the identifier to the [float] of
    tokens 1 and 2 of line 4 and of tokens 1 and 2 of line 7 of its text.
    A run on one record named [x.seqwish.og.tsv] with the three lines of
    the example gives each series the single entry [seqwish], with
    9.75053, 497.321, 20.0686 and 19.5609. *)
Theorem chart_series_last_wins :
  (forall F (float_of_str : string -> option F) (s : state F),
     let m := odgi_stats_map s in
     from_extraction float_of_str m ->
     derivable m ->
     (forall name, In name (keys m) -> chart_entry float_of_str m name <> None) ->
     exists r,
       odgi_metrics_series float_of_str s = (s, Ok r) /\
       plot_odgi_metrics float_of_str s =
         (with_call s
            (AddSection "Odgi metrics" "odgi-stats" "The odgi metrics section"
               "odgi metrics generated by the odgi stats module."
               [("in_node_space_mean", VDict (mean_links_length_nodes_space r));
                ("in_nucleotide_space_mean",
                 VDict (mean_links_length_nucleotide_space r));
                ("in_node_space_sum",
                 VDict (sum_of_path_nodes_distances_nodes_space r));
                ("in_nucleotide_space_sum",
                 VDict (sum_of_path_nodes_distances_nucleotide_space r))]
               metrics_lineplot_config), Ok tt) /\
       forall lf id pre post,
         stored float_of_str m lf ->
         deriveId_spec (fn lf) = Some id ->
         sorted_filenames m = pre ++ fn lf :: post ->
         (forall later, In later post -> deriveId_spec later <> Some id) ->
         exists a b c d,
           float_of_str (token (f lf) 4 1) = Some a /\
           float_of_str (token (f lf) 4 2) = Some b /\
           float_of_str (token (f lf) 7 1) = Some c /\
           float_of_str (token (f lf) 7 2) = Some d /\
           get (mean_links_length_nodes_space r) id = Some (VFloat a) /\
           get (mean_links_length_nucleotide_space r) id = Some (VFloat b) /\
           get (sum_of_path_nodes_distances_nodes_space r) id = Some (VFloat c) /\
           get (sum_of_path_nodes_distances_nucleotide_space r) id =
             Some (VFloat d)) /\
  (forall content,
     nth_error (splitlines content) 1 = Some (line ["8778"; "168"; "243"; "35"]) ->
     nth_error (splitlines content) 4 =
       Some (line ["all_paths"; "9.75053"; "497.321"; "942"]) ->
     nth_error (splitlines content) 7 =
       Some (line ["all_paths"; "20.0686"; "19.5609"; "977"; "51365"; "90"; "0"]) ->
     exists s',
       init Double.float_of_str [record "x.seqwish.og.tsv" content] fresh =
         (s', Ok tt) /\
       In (GeneralStatsAddcols
             [("seqwish",
               general_stats 8778%float 168%float 243%float 35%float)]
             summary_headers) (calls s') /\
       In (AddSection "Odgi metrics" "odgi-stats" "The odgi metrics section"
             "odgi metrics generated by the odgi stats module."
             [("in_node_space_mean", VDict [("seqwish", VFloat 9.75053%float)]);
              ("in_nucleotide_space_mean",
               VDict [("seqwish", VFloat 497.321%float)]);
              ("in_node_space_sum", VDict [("seqwish", VFloat 20.0686%float)]);
              ("in_nucleotide_space_sum",
               VDict [("seqwish", VFloat 19.5609%float)])]
             metrics_lineplot_config) (calls s')).
Proof.
  split.
  - intros F float_of_str s m Inv Der Chart.
    destruct (metrics_series_ok float_of_str s Inv Der Chart)
      as (entries & Hentries & Hrun).
    exists (fold_left series_step entries series_empty).
    split; [exact Hrun|]. split.
    { unfold plot_odgi_metrics. rewrite (bind_ok _ _ _ _ _ Hrun). reflexivity. }
    intros lf id pre post (v & Hget & x0 & x1 & x2 & x3 & _ & _ & _ & _ & ->)
           Hid Horder Hlater.
    fold m in Hentries. rewrite Horder in Hentries.
    assert (He := chart_entry_report float_of_str m _ _ _ Hget).
    rewrite Hid in He.
    assert (Hsome : chart_entry float_of_str m (fn lf) <> None).
    { apply Chart. apply get_in_keys. rewrite Hget. discriminate. }
    destruct (float_of_str (token (f lf) 4 1)) as [a|]; [|contradiction].
    destruct (float_of_str (token (f lf) 4 2)) as [b|]; [|contradiction].
    destruct (float_of_str (token (f lf) 7 1)) as [c|]; [|contradiction].
    destruct (float_of_str (token (f lf) 7 2)) as [d|]; [|contradiction].
    exists a, b, c, d. repeat (split; [reflexivity|]).
    exact (series_get_last float_of_str m pre post (fn lf) entries id a b c d
             series_empty Hentries He Hlater).
  - intros content H1 H4 H7.
    eexists. split.
    + cbv -[parse_odgi_stats_report plot_general_odgi_stats plot_odgi_metrics
            splitlines Double.float_of_str].
      rewrite parse_unfold. cbn [f fn]. rewrite H7. unfold tokens.
      rewrite H1, H4, H7. vm_compute. reflexivity.
    + cbn [calls]. split.
      * do 4 right. left. reflexivity.
      * do 5 right. left. reflexivity.
Qed.

(** The stores of the examples are stores of extracted reports. *)
Lemma loaded_from_extraction (found : list log_file) :
  for_each found tt (fun lf _ =>
    parse_odgi_stats_report Double.float_of_str lf ;; host (AddDataSource lf))
    fresh = (loaded found, Ok tt) ->
  from_extraction Double.float_of_str (odgi_stats_map (loaded found)).
Proof.
  intros H.
  apply (parse_loop_from_extraction Double.float_of_str found fresh _ H).
  intros name [].
Qed.

(** Two files of the smoothed graph, where the second is the last to
    derive [smooth], and the run on the report of the docstring. *)
Lemma chart_series_two_smooth :
  (exists r,
     odgi_metrics_series Double.float_of_str (loaded two_smooth) =
       (loaded two_smooth, Ok r) /\
     get (mean_links_length_nodes_space r) "smooth" = Some (VFloat 10.5%float) /\
     get (mean_links_length_nucleotide_space r) "smooth" =
       Some (VFloat 500.25%float) /\
     get (sum_of_path_nodes_distances_nodes_space r) "smooth" =
       Some (VFloat 21.5%float) /\
     get (sum_of_path_nodes_distances_nucleotide_space r) "smooth" =
       Some (VFloat 20.25%float)) /\
  (exists s',
     init Double.float_of_str [record "x.seqwish.og.tsv" docstring_text] fresh =
       (s', Ok tt)).
Proof.
  split.
  - destruct (proj1 chart_series_last_wins Double.F Double.float_of_str
                (loaded two_smooth)) as (r & Hrun & _ & Hlast).
    + apply loaded_from_extraction. vm_compute. reflexivity.
    + intros name H. vm_compute in H.
      destruct H as [<- | [<- | []]]; vm_compute; discriminate.
    + intros name H. vm_compute in H.
      destruct H as [<- | [<- | []]]; vm_compute; discriminate.
    + exists r. split; [exact Hrun|].
      destruct (Hlast (record "b.smooth.tsv" other_text) "smooth"
                  ["a.smooth.tsv"] [])
        as (a & b & c & d & Ea & Eb & Ec & Ed & Ga & Gb & Gc & Gd).
      * eexists. split; [vm_compute; reflexivity|].
        exists 9000%float, 170%float, 250%float, 36%float.
        repeat split; vm_compute; reflexivity.
      * vm_compute. reflexivity.
      * vm_compute. reflexivity.
      * intros later [].
      * vm_compute in Ea, Eb, Ec, Ed.
        injection Ea as <-. injection Eb as <-.
        injection Ec as <-. injection Ed as <-.
        repeat split; assumption.
  - destruct (proj2 chart_series_last_wins docstring_text)
      as (s' & Hrun & _); [vm_compute; reflexivity ..|].
    exists s'. exact Hrun.
Defined.

(** C8 as stated fails where two files derive one identifier: of the files
    [a.smooth.tsv] and [b.smooth.tsv] the series keep the values of the
    second under [smooth], not the 9.75053 of the first. *)
Lemma chart_series_collision :
  stored Double.float_of_str (odgi_stats_map (loaded two_smooth))
    (record "a.smooth.tsv" docstring_text) /\
  deriveId_spec "a.smooth.tsv" = Some "smooth" /\
  Double.float_of_str (token docstring_text 4 1) = Some 9.75053%float /\
  exists r,
    odgi_metrics_series Double.float_of_str (loaded two_smooth) =
      (loaded two_smooth, Ok r) /\
    get (mean_links_length_nodes_space r) "smooth" = Some (VFloat 10.5%float) /\
    @VFloat Double.F 10.5%float <> VFloat 9.75053%float.
Proof.
  split.
  { eexists. split; [vm_compute; reflexivity|].
    exists 8778%float, 168%float, 243%float, 35%float.
    repeat split; vm_compute; reflexivity. }
  split; [reflexivity|]. split; [vm_compute; reflexivity|].
  eexists. split; [vm_compute; reflexivity|].
  split; [vm_compute; reflexivity|].
  intros H.
  apply (f_equal (fun v => match v with
                           | VFloat x => PrimFloat.ltb x 10%float
                           | _ => false
                           end)) in H.
  vm_compute in H. discriminate.
Qed.

(** C9. A well-formed record one of whose four chart tokens is not numeric
    is extracted without error: its report goes into the store with the
    tokens of lines 4 and 7 as strings, and the summary table is built.
    The failure comes in [plot_odgi_metrics], which raises [ValueError]. *)
Theorem chart_conversion_deferred {F} (float_of_str : string -> option F)
    (lf : log_file) (s : state F) :
  from_extraction float_of_str (odgi_stats_map s) ->
  derivable (odgi_stats_map s) ->
  well_formed float_of_str (f lf) = true ->
  deriveId_spec (fn lf) <> None ->
  chartable float_of_str (f lf) = false ->
  exists s',
    parse_odgi_stats_report float_of_str lf s = (s', Ok tt) /\
    stored float_of_str (odgi_stats_map s') lf /\
    section_of (odgi_stats_map s') "Mean_links_length " (fn lf) =
      Some (VDict [("Path", VStr (token (f lf) 4 0));
                   ("In_node_space", VStr (token (f lf) 4 1));
                   ("In_nucleotide_space", VStr (token (f lf) 4 2));
                   ("Num_links_considered", VStr (token (f lf) 4 3))]) /\
    (exists data,
       plot_general_odgi_stats s' =
         (with_call s' (GeneralStatsAddcols data summary_headers), Ok tt)) /\
    plot_odgi_metrics float_of_str s' = (s', Raise ValueError).
Proof.
  intros Inv Der WF Hid Hc.
  destruct (parse_cases float_of_str lf)
    as [(_ & x0 & x1 & x2 & x3 & E0 & E1 & E2 & E3 & P) | (Bad & _)];
    [|congruence].
  set (v := file_report (fn lf) (f lf) (general_stats x0 x1 x2 x3)).
  set (s' := with_map s (PyDict.set (odgi_stats_map s) (fn lf) v)).
  assert (Hv : extracted_report float_of_str lf v)
    by (exists x0, x1, x2, x3; repeat split; assumption).
  assert (Hget : get (odgi_stats_map s') (fn lf) = Some v)
    by apply get_set_eq.
  assert (Inv' : from_extraction float_of_str (odgi_stats_map s'))
    by (apply from_extraction_set; assumption).
  assert (Der' : derivable (odgi_stats_map s'))
    by (apply derivable_set; assumption).
  exists s'. split; [apply P|].
  split; [exists v; split; assumption|].
  split.
  { unfold section_of. rewrite Hget. unfold v, file_report, report, format1, token.
    cbn. rewrite String.eqb_refl. reflexivity. }
  split; [apply (plot_general_from_extraction float_of_str); assumption|].
  unfold plot_odgi_metrics.
  apply bind_raise.
  eapply metrics_series_raise; eassumption.
Qed.

(** A report with a word for the mean link length in node space, parsed
    into a store that holds one report. *)
Lemma chart_conversion_deferred_bad_links :
  chartable Double.float_of_str bad_links_text = false /\
  exists s',
    parse_odgi_stats_report Double.float_of_str
      (record "c.smooth.tsv" bad_links_text) (loaded one_seqwish) = (s', Ok tt) /\
    section_of (odgi_stats_map s') "Mean_links_length " "c.smooth.tsv" =
      Some (VDict [("Path", VStr "all_paths");
                   ("In_node_space", VStr "unknown");
                   ("In_nucleotide_space", VStr "497.321");
                   ("Num_links_considered", VStr "942")]) /\
    (exists data,
       plot_general_odgi_stats s' =
         (with_call s' (GeneralStatsAddcols data summary_headers), Ok tt)) /\
    plot_odgi_metrics Double.float_of_str s' = (s', Raise ValueError).
Proof.
  split; [vm_compute; reflexivity|].
  destruct (chart_conversion_deferred Double.float_of_str
              (record "c.smooth.tsv" bad_links_text) (loaded one_seqwish))
    as (s' & Hparse & _ & Hsec & Hgen & Hplot).
  - apply loaded_from_extraction. vm_compute. reflexivity.
  - intros name H. vm_compute in H.
    destruct H as [<- | []]; vm_compute; discriminate.
  - vm_compute. reflexivity.
  - vm_compute. discriminate.
  - vm_compute. reflexivity.
  - exists s'. split; [exact Hparse|]. split; [|split; assumption].
    unfold record in Hsec. cbn [fn f] in Hsec.
    rewrite Hsec. vm_compute. reflexivity.
Defined.

End OdgiSpec.

(** * Further properties of the module *)

Module OdgiRunFacts.

Import PyStr PyList PyDict Odgi OdgiRun.
Import PyStrFacts PyListFacts PyDictFacts OdgiFacts.

(** *** Segments *)

Lemma contains_char_cons (sep c : ascii) (w : string) :
  contains (String sep "") (String c w) =
    (Ascii.eqb sep c || contains (String sep "") w)%bool.
Proof.
  cbn [contains String.prefix].
  destruct (ascii_dec sep c) as [->|ne].
  - rewrite Ascii.eqb_refl. destruct w; reflexivity.
  - apply Ascii.eqb_neq in ne. rewrite ne. reflexivity.
Qed.

(** No piece of [s.split(sep)] contains the separator. *)
Lemma split_no_sep (sep : ascii) (s e : string) :
  In e (split sep s) -> contains (String sep "") e = false.
Proof.
  revert e. induction s as [|c s IH]; intros e; simpl.
  - intros [<- | []]. reflexivity.
  - destruct (Ascii.eqb_spec c sep) as [->|ne].
    + intros [<- | H]; [reflexivity | apply IH; exact H].
    + pose proof (split_nonempty sep s) as NE.
      destruct (split sep s) as [|w ws]; [contradiction|].
      intros [<- | H].
      * rewrite contains_char_cons, (IH w (or_introl eq_refl)).
        assert (Ascii.eqb sep c = false) as ->
          by (apply Ascii.eqb_neq; congruence).
        reflexivity.
      * apply IH. right. exact H.
Qed.

(** *** Computations that keep the store *)

Section Keeps.

Context {F : Type}.
Variable float_of_str : string -> option F.

Lemma keeps_ret {A} (a : A) : keeps_store (@ret F A a).
Proof. intros s. split; [reflexivity|]. exists []. symmetry. apply app_nil_r. Qed.

Lemma keeps_raise {A} (e : exn) : keeps_store (@raise F A e).
Proof. intros s. split; [reflexivity|]. exists []. symmetry. apply app_nil_r. Qed.

Lemma keeps_host (c : host_call F) : keeps_store (host c).
Proof. intros s. split; [reflexivity|]. exists [c]. reflexivity. Qed.

Lemma keeps_get_map : keeps_store (@get_odgi_stats_map F).
Proof. intros s. split; [reflexivity|]. exists []. symmetry. apply app_nil_r. Qed.

Lemma keeps_bind {A B} (c : Py F A) (k : A -> Py F B) :
  keeps_store c -> (forall a, keeps_store (k a)) -> keeps_store (bind c k).
Proof.
  intros Hc Hk s. unfold bind.
  destruct (Hc s) as (M & l & C).
  destruct (c s) as [s' [a|e]]; cbn [fst] in *.
  - destruct (Hk a s') as (M' & l' & C'). split; [congruence|].
    exists (l ++ l'). rewrite C', C, app_assoc. reflexivity.
  - split; [exact M | exists l; exact C].
Qed.

Lemma keeps_try_except {A} (c : Py F A) (E : exn -> bool) (h : Py F A) :
  keeps_store c -> keeps_store h -> keeps_store (try_except c E h).
Proof.
  intros Hc Hh s. unfold try_except.
  destruct (Hc s) as (M & l & C).
  destruct (c s) as [s' [a|e]]; cbn [fst] in *.
  - split; [exact M | exists l; exact C].
  - destruct (E e).
    + destruct (Hh s') as (M' & l' & C'). split; [congruence|].
      exists (l ++ l'). rewrite C', C, app_assoc. reflexivity.
    + split; [exact M | exists l; exact C].
Qed.

Lemma keeps_getitem {A} (l : list A) (i : Z) : keeps_store (@getitem F A l i).
Proof.
  unfold getitem. destruct (item l i); [apply keeps_ret | apply keeps_raise].
Qed.

Lemma keeps_subscript (v : value F) (k : string) : keeps_store (subscript v k).
Proof.
  unfold subscript. destruct v as [x|t|d]; try apply keeps_raise.
  destruct (PyDict.get d k); [apply keeps_ret | apply keeps_raise].
Qed.

Lemma keeps_float (v : value F) : keeps_store (float float_of_str v).
Proof.
  unfold float. destruct v as [x|t|d];
    [apply keeps_ret | | apply keeps_raise].
  destruct (float_of_str t); [apply keeps_ret | apply keeps_raise].
Qed.

Lemma keeps_for_each {A S} (l : list A) (acc : S) (body : A -> S -> Py F S) :
  (forall x a, keeps_store (body x a)) -> keeps_store (for_each l acc body).
Proof.
  intros Hb. revert acc. induction l as [|x l IH]; intros acc; cbn [for_each].
  - apply keeps_ret.
  - apply keeps_bind; [apply Hb | intros a; apply IH].
Qed.

Lemma keeps_strip_file_name (fn : string) : keeps_store (@strip_file_name F fn).
Proof.
  unfold strip_file_name.
  destruct (contains "seqwish.og" fn); [apply keeps_ret|].
  destruct (contains "smooth" fn); [apply keeps_ret|].
  apply keeps_try_except; [apply keeps_getitem|].
  apply keeps_bind; [apply keeps_host | intros _; apply keeps_raise].
Qed.

Ltac keeps :=
  repeat first
    [ apply keeps_ret | apply keeps_raise | apply keeps_host
    | apply keeps_get_map | apply keeps_getitem | apply keeps_subscript
    | apply keeps_float | apply keeps_strip_file_name
    | apply keeps_for_each; intros
    | apply keeps_bind; [|intros] ].

Lemma keeps_plot_general : keeps_store (@plot_general_odgi_stats F).
Proof. unfold plot_general_odgi_stats. keeps. Qed.

Lemma keeps_metrics_body (fn : string) (acc : series F) :
  keeps_store (metrics_body float_of_str fn acc).
Proof. unfold metrics_body. keeps. Qed.

Lemma keeps_plot_metrics : keeps_store (plot_odgi_metrics float_of_str).
Proof.
  unfold plot_odgi_metrics, odgi_metrics_series.
  apply keeps_bind; [|intros; apply keeps_host].
  apply keeps_bind; [apply keeps_get_map | intros m].
  apply keeps_for_each. apply keeps_metrics_body.
Qed.

End Keeps.

(** *** Keys of a dictionary *)

Lemma mem_In (k : string) (ks : list string) : mem k ks = true <-> In k ks.
Proof.
  unfold mem. rewrite existsb_exists. split.
  - intros (x & Hx & E). apply String.eqb_eq in E. subst. exact Hx.
  - intros H. exists k. split; [exact H | apply String.eqb_refl].
Qed.

Lemma mem_false (k : string) (ks : list string) :
  mem k ks = false <-> ~ In k ks.
Proof.
  rewrite <- mem_In. destruct (mem k ks); split; congruence.
Qed.

(** [d[k] = v] keeps the place of a key that is there and puts a new key
    last. *)
Lemma keys_set {V} (d : PyDict.t V) k v :
  keys (set d k v) = if mem k (keys d) then keys d else keys d ++ [k].
Proof.
  induction d as [|[k' v'] d IH]; [reflexivity|].
  cbn [set keys map fst]. unfold mem. cbn [existsb].
  rewrite (String.eqb_sym k k').
  destruct (String.eqb k' k); [reflexivity|].
  cbn [keys map fst orb]. fold (keys d). fold (keys (set d k v)).
  rewrite IH. unfold mem. destruct (existsb (String.eqb k) (keys d)); reflexivity.
Qed.

Lemma NoDup_keys_set {V} (d : PyDict.t V) k v :
  NoDup (keys d) -> NoDup (keys (set d k v)).
Proof.
  intros H. rewrite keys_set. destruct (mem k (keys d)) eqn:E; [exact H|].
  apply mem_false in E.
  apply NoDup_app; [exact H | repeat constructor; intros [] | ].
  intros x Hx [<- | []]. contradiction.
Qed.

Lemma filter_filter {A} (p q : A -> bool) (l : list A) :
  filter p (filter q l) = filter (fun x => (q x && p x)%bool) l.
Proof.
  induction l as [|x l IH]; [reflexivity|]. simpl.
  destruct (q x); simpl; [destruct (p x)|]; rewrite ?IH; reflexivity.
Qed.

Lemma distinct_in (l : list string) x : In x (distinct l) <-> In x l.
Proof.
  induction l as [|y l IH]; simpl; [reflexivity|].
  rewrite filter_In, IH. split.
  - intros [H | (H & _)]; auto.
  - intros [H | H]; [left; exact H|].
    destruct (String.eqb_spec y x) as [E|ne]; [left; exact E|].
    right. split; [exact H | reflexivity].
Qed.

Lemma distinct_NoDup (l : list string) : NoDup (distinct l).
Proof.
  induction l as [|y l IH]; simpl; constructor.
  - rewrite filter_In. intros (_ & H). rewrite String.eqb_refl in H. discriminate.
  - apply NoDup_filter. exact IH.
Qed.

(** The keys after a run of writes: those there before, then the new ones
    in the order in which they are first written. *)
Lemma keys_fold_set {A V} (key : A -> string) (val : A -> V)
    (l : list A) (d : PyDict.t V) :
  keys (fold_left (fun acc y => set acc (key y) (val y)) l d) =
    keys d ++ filter (fun k => negb (mem k (keys d))) (distinct (map key l)).
Proof.
  revert d. induction l as [|y l IH]; intros d; cbn [fold_left map distinct].
  - symmetry. apply app_nil_r.
  - rewrite IH, keys_set. cbn [filter].
    destruct (mem (key y) (keys d)) eqn:E; cbn [negb].
    + f_equal. rewrite filter_filter. apply filter_ext_in.
      intros x _. destruct (String.eqb_spec (key y) x) as [<-|ne];
        [rewrite E|]; reflexivity.
    + rewrite <- app_assoc. cbn [app]. do 2 f_equal.
      rewrite filter_filter. apply filter_ext.
      intros x. unfold mem. rewrite existsb_app. cbn [existsb].
      rewrite orb_false_r, (String.eqb_sym x (key y)).
      destruct (existsb (String.eqb x) (keys d)), (String.eqb (key y) x);
        reflexivity.
Qed.

Lemma keys_update_empty {V} (entries : list (string * V)) :
  keys (update [] entries) = distinct (map fst entries).
Proof.
  unfold update. rewrite (keys_fold_set fst snd). cbn [keys map app].
  clear. induction (distinct (map fst entries)) as [|x l IH];
    [reflexivity | simpl; f_equal; exact IH].
Qed.

(** What is found under a key after a run of writes was there before or
    was written. *)
Lemma get_fold_set_in {A V} (key : A -> string) (val : A -> V)
    (l : list A) (d : PyDict.t V) k v :
  get (fold_left (fun acc y => set acc (key y) (val y)) l d) k = Some v ->
  get d k = Some v \/ exists y, In y l /\ key y = k /\ val y = v.
Proof.
  revert d. induction l as [|y l IH]; intros d H; cbn [fold_left] in H.
  - left. exact H.
  - destruct (IH _ H) as [H' | (z & Hz & E)].
    + destruct (string_dec (key y) k) as [<-|ne].
      * rewrite get_set_eq in H'. injection H' as <-.
        right. exists y. split; [left; reflexivity | split; reflexivity].
      * rewrite get_set_ne in H' by exact ne. left. exact H'.
    + right. exists z. split; [right; exact Hz | exact E].
Qed.

(** *** The loop of [__init__] *)

Section Loop.

Context {F : Type}.
Variable float_of_str : string -> option F.

Lemma for_each_app {A S} (l1 l2 : list A) (acc : S) (body : A -> S -> Py F S) s :
  for_each (l1 ++ l2) acc body s =
    bind (for_each l1 acc body) (fun a => for_each l2 a body) s.
Proof.
  revert acc s. induction l1 as [|x l1 IH]; intros acc s; [reflexivity|].
  cbn [app for_each]. unfold bind.
  destruct (body x acc s) as [s' [a|e]]; [|reflexivity].
  rewrite IH. reflexivity.
Qed.

(** A loop in which every round returns normally, leaving the state
    alone, or ends in the state [s1] raising [e], and some round does the
    latter, ends in [s1] raising [e]. *)
Lemma for_each_raise_in {A S} (l : list A) (body : A -> S -> Py F S)
    (e : exn) (s s1 : state F) (acc : S) :
  (forall x a, In x l ->
     (exists a', body x a s = (s, Ok a')) \/ body x a s = (s1, Raise e)) ->
  (exists x, In x l /\ forall a, body x a s = (s1, Raise e)) ->
  for_each l acc body s = (s1, Raise e).
Proof.
  revert acc. induction l as [|x l IH]; intros acc Hall (x0 & Hin & Hx0).
  - contradiction.
  - cbn [for_each]. unfold bind.
    destruct (Hall x acc (or_introl eq_refl)) as [(a' & E) | E]; rewrite E;
      [|reflexivity].
    destruct Hin as [->|Hin].
    + rewrite Hx0 in E. discriminate.
    + apply IH; [|eauto]. intros y a Hy. apply Hall. right. exact Hy.
Qed.

(** The loop parses the records in turn: all of them when all are well
    formed, else those before the first that is not, where it stops with
    a FormatError. *)
Lemma parse_all_cases (found : list log_file) s :
  (Forall (fun lf => well_formed float_of_str (f lf) = true) found /\
   exists entries,
     Forall2 (entry_of float_of_str) found entries /\
     parse_all float_of_str found s =
       ({| odgi_stats_map := update (odgi_stats_map s) entries;
           calls := calls s ++ map AddDataSource found |}, Ok tt))
  \/
  (exists pre bad post e entries,
     found = pre ++ bad :: post /\
     Forall (fun lf => well_formed float_of_str (f lf) = true) pre /\
     well_formed float_of_str (f bad) = false /\
     is_FormatError e /\
     Forall2 (entry_of float_of_str) pre entries /\
     parse_all float_of_str found s =
       ({| odgi_stats_map := update (odgi_stats_map s) entries;
           calls := calls s ++ map AddDataSource pre |}, Raise e)).
Proof.
  revert s. induction found as [|lf found IH]; intros s.
  - left. split; [constructor|]. exists []. split; [constructor|].
    destruct s as [m c]. cbn. rewrite app_nil_r. reflexivity.
  - assert (Step : parse_all float_of_str (lf :: found) s =
              match parse_odgi_stats_report float_of_str lf s with
              | (s', Ok _) =>
                  parse_all float_of_str found (with_call s' (AddDataSource lf))
              | (s', Raise e) => (s', Raise e)
              end).
    { unfold parse_all. cbn [for_each]. unfold bind.
      destruct (parse_odgi_stats_report float_of_str lf s) as [s' [[]|e]];
        reflexivity. }
    rewrite Step. clear Step.
    destruct (parse_cases float_of_str lf)
      as [(WF & x0 & x1 & x2 & x3 & E0 & E1 & E2 & E3 & P)
         | (Bad & e & He & P)]; rewrite P.
    + set (v := file_report (fn lf) (f lf) (general_stats x0 x1 x2 x3)).
      assert (Hv : entry_of float_of_str lf (fn lf, v)).
      { split; [reflexivity|]. exists x0, x1, x2, x3. repeat split; assumption. }
      destruct (IH (with_call (with_map s (set (odgi_stats_map s) (fn lf) v))
                      (AddDataSource lf)))
        as [(WFs & entries & H2 & Hrun)
           | (pre & bad & post & e & entries & Efound & WFs & Bad & He & H2 & Hrun)];
        rewrite Hrun; cbn [odgi_stats_map calls with_call with_map];
        rewrite <- app_assoc.
      * left. split; [constructor; assumption|].
        exists ((fn lf, v) :: entries). split; [constructor; assumption|].
        reflexivity.
      * right. exists (lf :: pre), bad, post, e, ((fn lf, v) :: entries).
        split; [rewrite Efound; reflexivity|].
        split; [constructor; assumption|].
        split; [exact Bad|]. split; [exact He|].
        split; [constructor; assumption | reflexivity].
    + right. exists [], lf, found, e, [].
      split; [reflexivity|]. split; [constructor|].
      split; [exact Bad|]. split; [exact He|]. split; [constructor|].
      destruct s as [m c]. cbn. rewrite app_nil_r. reflexivity.
Qed.

(** The store the loop builds from the empty store. *)
Lemma update_entries_store (found : list log_file) entries :
  Forall2 (entry_of float_of_str) found entries ->
  let m := update [] entries in
  keys m = distinct (map fn found) /\
  from_extraction float_of_str m /\
  (forall name v, get m name = Some v ->
     exists lf, In lf found /\ fn lf = name /\ extracted_report float_of_str lf v) /\
  (forall pre lf post, found = pre ++ lf :: post ->
     (forall later, In later post -> fn later <> fn lf) ->
     stored float_of_str m lf).
Proof.
  intros H m.
  assert (Hget : forall name v, get m name = Some v ->
            exists lf, In lf found /\ fn lf = name /\
                       extracted_report float_of_str lf v).
  { intros name v Hg. apply get_fold_set_in in Hg.
    destruct Hg as [Hg | ([k w] & Hin & Ek & Ew)]; [discriminate|].
    cbn [fst snd] in Ek, Ew. subst k w.
    destruct (Forall2_in_r _ _ _ _ H Hin) as (lf & Hlf & E1 & E2).
    cbn [fst snd] in E1, E2. eauto. }
  split.
  { subst m. rewrite keys_update_empty. f_equal.
    clear Hget. induction H as [|lf e found entries (E & _) _ IH];
      [reflexivity | cbn [map]; congruence]. }
  split.
  { intros name Hin. apply get_in_keys in Hin.
    destruct (get m name) as [v|] eqn:Hg; [|contradiction].
    destruct (Hget name v Hg) as (lf & _ & E & Hv).
    exists lf. split; [exact E|]. exists v. split; [congruence | exact Hv]. }
  split; [exact Hget|].
  intros pre lf post -> Hlater.
  apply Forall2_app_inv_l in H.
  destruct H as (epre & epost' & _ & Hpost & Eentries).
  inversion Hpost as [|? [k v] ? epost (Ek & Hv) Hpost' E1 E2]; subst.
  cbn [fst snd] in Ek, Hv. subst k.
  exists v. split; [|exact Hv].
  apply (get_fold_set_last fst snd epre epost (fn lf, v)).
  intros y Hy E. cbn [fst] in E.
  destruct (Forall2_in_r _ _ _ _ Hpost' Hy) as (later & Hl & El & _).
  apply (Hlater later Hl). congruence.
Qed.

End Loop.

(** *** The outcomes of the two plotting methods *)

Section Outcomes.

Context {F : Type}.
Variable float_of_str : string -> option F.

Lemma derivable_dec (m : dict F) :
  derivable m \/ exists name, In name (keys m) /\ deriveId_spec name = None.
Proof.
  unfold derivable. induction (keys m) as [|k ks IH].
  - left. intros name [].
  - destruct (deriveId_spec k) as [id|] eqn:E.
    + destruct IH as [IH | (name & Hin & Hn)].
      * left. intros name [<- | Hin]; [congruence | apply IH; exact Hin].
      * right. exists name. split; [right; exact Hin | exact Hn].
    + right. exists k. split; [left; reflexivity | exact E].
Qed.

(** A round of the loop of [plot_general_odgi_stats] on a name without
    identifier. *)
Lemma general_round_exit s name (data : dict F) :
  In name (keys (odgi_stats_map s)) ->
  deriveId_spec name = None ->
  (m <- get_odgi_stats_map ;;
   file_stats <- subscript (VDict m) name ;;
   unique_file_identifier <- strip_file_name name ;;
   row <- subscript file_stats (format1 "General stats " name) ;;
   ret (PyDict.update data [(unique_file_identifier, row)])) s
  = (with_call s (LogError unknown_file_name), Raise (SystemExit 1)).
Proof.
  intros Hin Hid. rewrite bind_get_map, bind_subscript.
  apply get_in_keys in Hin.
  destruct (get (odgi_stats_map s) name) as [v|]; [|contradiction].
  apply bind_raise. apply strip_file_name_exit. exact Hid.
Qed.

Lemma plot_general_exit s :
  from_extraction float_of_str (odgi_stats_map s) ->
  (exists name, In name (keys (odgi_stats_map s)) /\ deriveId_spec name = None) ->
  plot_general_odgi_stats s =
    (with_call s (LogError unknown_file_name), Raise (SystemExit 1)).
Proof.
  intros Inv Hbad. unfold plot_general_odgi_stats.
  rewrite bind_get_map. apply bind_raise.
  apply for_each_raise_in.
  - intros name data Hin.
    destruct (deriveId_spec name) as [id|] eqn:Hid.
    + left. destruct (from_extraction_get _ _ _ Inv Hin) as (text & g & Hget).
      unfold file_report in Hget.
      eexists. apply (general_round s name id g data Hid).
      eapply section_general. exact Hget.
    + right. apply general_round_exit; assumption.
  - destruct Hbad as (name & Hin & Hid). exists name. split; [exact Hin|].
    intros data. apply general_round_exit; assumption.
Qed.

(** A round of the loop of [plot_odgi_metrics] on a name without
    identifier. *)
Lemma metrics_round_exit s name (acc : series F) :
  In name (keys (odgi_stats_map s)) ->
  deriveId_spec name = None ->
  metrics_body float_of_str name acc s =
    (with_call s (LogError unknown_file_name), Raise (SystemExit 1)).
Proof.
  intros Hin Hid. unfold metrics_body. rewrite bind_get_map, bind_subscript.
  apply get_in_keys in Hin.
  destruct (get (odgi_stats_map s) name) as [v|]; [|contradiction].
  apply bind_raise. apply strip_file_name_exit. exact Hid.
Qed.

(** A loop in which every round returns normally, leaving the state
    alone, or raises an exception among [E], returns normally or raises
    an exception among [E]. *)
Lemma for_each_outcome {A S} (l : list A) (body : A -> S -> Py F S)
    (E : exn -> Prop) s (acc : S) :
  (forall x a, In x l ->
     (exists a', body x a s = (s, Ok a')) \/
     (exists s' e, body x a s = (s', Raise e) /\ E e)) ->
  (exists a', for_each l acc body s = (s, Ok a')) \/
  (exists s' e, for_each l acc body s = (s', Raise e) /\ E e).
Proof.
  revert acc. induction l as [|x l IH]; intros acc Hall.
  - left. exists acc. reflexivity.
  - cbn [for_each]. unfold bind.
    destruct (Hall x acc (or_introl eq_refl)) as [(a' & R) | (s' & e & R & He)];
      rewrite R.
    + apply IH. intros y a Hy. apply Hall. right. exact Hy.
    + right. eauto.
Qed.

(** On a store of extracted reports [plot_odgi_metrics] adds its section,
    or exits on a name without identifier, or raises [ValueError]. *)
Lemma plot_metrics_outcome s :
  from_extraction float_of_str (odgi_stats_map s) ->
  (exists r, plot_odgi_metrics float_of_str s =
               (with_call s (metrics_section r), Ok tt)) \/
  (exists s' e, plot_odgi_metrics float_of_str s = (s', Raise e) /\
                (e = SystemExit 1 \/ e = ValueError)).
Proof.
  intros Inv. unfold plot_odgi_metrics.
  assert (H : (exists r, odgi_metrics_series float_of_str s = (s, Ok r)) \/
              (exists s' e, odgi_metrics_series float_of_str s = (s', Raise e) /\
                            (e = SystemExit 1 \/ e = ValueError))).
  { unfold odgi_metrics_series. rewrite bind_get_map.
    apply for_each_outcome. intros name acc Hin.
    apply sorted_filenames_in in Hin.
    destruct (deriveId_spec name) as [id|] eqn:Hid.
    - destruct (from_extraction_get _ _ _ Inv Hin) as (text & g & Hget).
      rewrite (metrics_round_entry float_of_str s name text g acc Hget)
        by congruence.
      destruct (chart_entry float_of_str (odgi_stats_map s) name);
        [left | right]; eauto 6.
    - right. rewrite (metrics_round_exit s name acc Hin Hid). eauto 6. }
  destruct H as [(r & R) | (s' & e & R & He)].
  - left. exists r. rewrite (bind_ok _ _ _ _ _ R). reflexivity.
  - right. exists s', e. split; [apply bind_raise; exact R | exact He].
Qed.

(** [__init__] on reports found: the opening, the loop, the data file,
    the table and the chart. *)
Lemma init_unfold (found : list log_file) s :
  found <> [] ->
  init float_of_str found s =
    (parse_all float_of_str found ;;
     m <- get_odgi_stats_map ;;
     host (WriteDataFile m "multiqc_odgi_stats") ;;
     plot_general_odgi_stats ;;
     plot_odgi_metrics float_of_str)
      {| odgi_stats_map := []; calls := calls s ++ opening |}.
Proof.
  intros NE. destruct found as [|lf found]; [contradiction|].
  unfold init, opening. unfold bind at 1 2 3 4.
  cbn [host set_odgi_stats_map get_odgi_stats_map odgi_stats_map calls].
  rewrite <- app_assoc. reflexivity.
Qed.

End Outcomes.

(** *** Reading a prefix *)

Lemma nth_error_firstn_lt {A} (n j : nat) (l : list A) :
  j < n -> nth_error (firstn n l) j = nth_error l j.
Proof.
  revert j l. induction n as [|n IH]; intros j l H; [lia|].
  destruct l as [|x l]; [reflexivity|].
  destruct j as [|j]; [reflexivity|].
  cbn [firstn nth_error]. apply IH. lia.
Qed.

Lemma item_firstn {A} (n j : nat) (l : list A) :
  j < n -> item (firstn n l) (Z.of_nat j) = item l (Z.of_nat j).
Proof.
  intros H. rewrite !item_nat. apply nth_error_firstn_lt. exact H.
Qed.

Ltac prefix_item n j T :=
  let H := fresh in
  assert (H : item (firstn n T) (Z.of_nat j) = item T (Z.of_nat j))
    by (apply item_firstn; lia);
  cbv [Z.of_nat Pos.of_succ_nat Pos.succ] in H; rewrite H; clear H.

(** [compress_stats_data] looks at the first four, four and seven tokens
    only. *)
Lemma compress_prefix {F} (float_of_str : string -> option F)
    fn (T1 T4 T7 : list string) :
  compress_stats_data float_of_str fn (firstn 4 T1) (firstn 4 T4) (firstn 7 T7) =
  compress_stats_data float_of_str fn T1 T4 T7.
Proof.
  unfold compress_stats_data, getitem.
  prefix_item 4 0 T1. prefix_item 4 1 T1. prefix_item 4 2 T1. prefix_item 4 3 T1.
  prefix_item 4 0 T4. prefix_item 4 1 T4. prefix_item 4 2 T4. prefix_item 4 3 T4.
  prefix_item 7 0 T7. prefix_item 7 1 T7. prefix_item 7 2 T7. prefix_item 7 3 T7.
  prefix_item 7 4 T7. prefix_item 7 5 T7. prefix_item 7 6 T7.
  reflexivity.
Qed.

(** *** The whole run *)

Section Whole.

Context {F : Type}.
Variable float_of_str : string -> option F.

Lemma first_bad_unique (pre pre' : list log_file) bad bad' post post' :
  pre ++ bad :: post = pre' ++ bad' :: post' ->
  Forall (fun lf => well_formed float_of_str (f lf) = true) pre -> well_formed float_of_str (f bad) = false ->
  Forall (fun lf => well_formed float_of_str (f lf) = true) pre' -> well_formed float_of_str (f bad') = false ->
  pre = pre'.
Proof.
  revert pre'. induction pre as [|x pre IH]; intros [|x' pre'] E Hp Hb Hp' Hb'.
  - reflexivity.
  - injection E as <- _. apply Forall_inv in Hp'. cbv beta in Hp'. congruence.
  - injection E as -> _. apply Forall_inv in Hp. cbv beta in Hp. congruence.
  - injection E as <- E. f_equal.
    apply (IH pre' E); try assumption.
    + apply Forall_inv_tail in Hp. exact Hp.
    + apply Forall_inv_tail in Hp'. exact Hp'.
Qed.

(** The loop on well-formed records, from an empty store. *)
Lemma parse_all_empty_store (found : list log_file) s :
  Forall (fun lf => well_formed float_of_str (f lf) = true) found ->
  odgi_stats_map s = [] ->
  exists m,
    parse_all float_of_str found s =
      ({| odgi_stats_map := m; calls := calls s ++ map AddDataSource found |},
       Ok tt) /\
    keys m = distinct (map fn found) /\
    from_extraction float_of_str m /\
    (forall name v, get m name = Some v ->
       exists lf, In lf found /\ fn lf = name /\
                  extracted_report float_of_str lf v).
Proof.
  intros WF Empty.
  destruct (parse_all_cases float_of_str found s)
    as [(_ & entries & H2 & Hrun)
       | (pre & bad & post & e & entries & -> & _ & Bad & _)].
  - rewrite Empty in Hrun. exists (update [] entries).
    destruct (update_entries_store float_of_str found entries H2)
      as (Hkeys & Inv & Hget & _).
    repeat split; assumption.
  - rewrite Forall_forall in WF. rewrite WF in Bad; [discriminate|].
    apply in_or_app. right. left. reflexivity.
Qed.

Lemma chart_entry_chartable (m : dict F) name text g :
  get m name = Some (file_report name text g) ->
  deriveId_spec name <> None ->
  chartable float_of_str text = true ->
  chart_entry float_of_str m name <> None.
Proof.
  intros Hget Hid Hc. rewrite (chart_entry_report _ _ _ _ _ Hget).
  unfold chartable, numeric in Hc.
  destruct (deriveId_spec name); [|contradiction].
  destruct (float_of_str (token text 4 1)); [|discriminate].
  destruct (float_of_str (token text 4 2)); [|discriminate].
  destruct (float_of_str (token text 7 1)); [|discriminate].
  destruct (float_of_str (token text 7 2)); [discriminate | discriminate].
Qed.

(** What [__init__] does after the loop, on a store of extracted reports
    whose names all have an identifier and numeric chart tokens. *)
Lemma plots_ok s :
  from_extraction float_of_str (odgi_stats_map s) ->
  derivable (odgi_stats_map s) ->
  (forall name, In name (keys (odgi_stats_map s)) ->
     chart_entry float_of_str (odgi_stats_map s) name <> None) ->
  exists data r,
    (m <- get_odgi_stats_map ;;
     host (WriteDataFile m "multiqc_odgi_stats") ;;
     plot_general_odgi_stats ;;
     plot_odgi_metrics float_of_str) s =
    ({| odgi_stats_map := odgi_stats_map s;
        calls := calls s ++
          [WriteDataFile (odgi_stats_map s) "multiqc_odgi_stats";
           GeneralStatsAddcols data summary_headers;
           metrics_section r] |}, Ok tt).
Proof.
  intros Inv Der Chart.
  set (s2 := with_call s (WriteDataFile (odgi_stats_map s) "multiqc_odgi_stats")).
  destruct (plot_general_from_extraction float_of_str s2 Inv Der)
    as (data & Hgen).
  set (s3 := with_call s2 (GeneralStatsAddcols data summary_headers)) in *.
  destruct (metrics_series_ok float_of_str s3 Inv Der Chart)
    as (entries & _ & Hser).
  exists data, (fold_left series_step entries series_empty).
  rewrite bind_get_map. unfold bind at 1. cbn [host]. fold s2.
  rewrite (bind_ok _ _ _ _ _ Hgen).
  unfold plot_odgi_metrics. rewrite (bind_ok _ _ _ _ _ Hser).
  subst s3 s2. unfold host, with_call, metrics_section.
  cbn [odgi_stats_map calls]. rewrite <- !app_assoc. reflexivity.
Qed.

End Whole.

Lemma distinct_in_keys {F} (m : dict F) (found : list log_file) lf :
  keys m = distinct (map fn found) ->
  (In (fn lf) (keys m) <-> In lf found \/ In (fn lf) (map fn found)).
Proof.
  intros ->. rewrite distinct_in. split; [auto|].
  intros [H | H]; [apply in_map; exact H | exact H].
Qed.

Lemma bind_host {F B} (c : host_call F) (k : unit -> Py F B) s :
  bind (host c) k s = k tt (with_call s c).
Proof. reflexivity. Qed.

(** *** The order of the output *)

Lemma distinct_length (l : list string) : List.length (distinct l) <= List.length l.
Proof.
  induction l as [|x l IH]; simpl; [lia|].
  pose proof (filter_length_le (fun y => negb (String.eqb x y)) (distinct l)).
  lia.
Qed.

Lemma sorted_perm_eq (l l' : list string) :
  Permutation l l' -> sorted l = sorted l'.
Proof.
  intros P. apply ordered_perm_unique; try apply sorted_ordered.
  rewrite <- (sorted_perm l), <- (sorted_perm l'). exact P.
Qed.

Lemma summary_entries_ids {F} (m : dict F) (names : list string) entries :
  Forall2 (fun name e => summary_entry m name = Some e) names entries ->
  Forall2 (fun name id => deriveId_spec name = Some id) names (map fst entries).
Proof.
  induction 1 as [|name [id row] names entries H _ IH]; cbn [map];
    constructor; [|exact IH].
  unfold summary_entry in H.
  destruct (deriveId_spec name); [|discriminate].
  destruct (section_of m "General stats " name); [|discriminate].
  cbn [fst]. congruence.
Qed.

Lemma chart_entries_ids {F} (float_of_str : string -> option F)
    (m : dict F) (names : list string) entries :
  Forall2 (fun name e => chart_entry float_of_str m name = Some e) names entries ->
  Forall2 (fun name id => deriveId_spec name = Some id) names
    (map (fun e => fst (fst (fst (fst e)))) entries).
Proof.
  induction 1 as [|name [[[[id a] b] c] d] names entries H _ IH]; cbn [map];
    constructor; [|exact IH].
  cbn [fst]. eapply chart_entry_id. exact H.
Qed.

End OdgiRunFacts.

Module OdgiExtra.

#[local] Set Warnings "-inexact-float".

Import PyStr PyList PyDict Odgi OdgiRun Examples MoreExamples.
Import PyStrFacts PyListFacts PyDictFacts OdgiFacts OdgiRunFacts.

(** ** Group identifiers *)

(** X1. [strip_file_name] has two outcomes only.  Either it returns an
    identifier and leaves the instance alone: the identifier is
    [seqwish], [smooth] or a segment of the name that contains
    [consensus@], and it never contains a dot.  Or it logs the unknown
    file name and exits with status 1; it raises nothing else, the
    [IndexError] of the empty list being caught. *)
Theorem strip_file_name_outcome {F} (s : state F) (fn : string) :
  (exists id,
     strip_file_name fn s = (s, Ok id) /\
     deriveId_spec fn = Some id /\
     (id = "seqwish" \/ id = "smooth" \/
      (In id (split DOT fn) /\ contains "consensus@" id = true)) /\
     contains "." id = false)
  \/
  (strip_file_name fn s =
     (with_call s (LogError unknown_file_name), Raise (SystemExit 1)) /\
   deriveId_spec fn = None).
Proof.
  destruct (deriveId_spec fn) as [id|] eqn:E.
  - left. exists id. split; [apply strip_file_name_ok; exact E|].
    split; [reflexivity|].
    unfold deriveId_spec in E.
    destruct (contains "seqwish.og" fn);
      [injection E as <-; split; [auto | reflexivity]|].
    destruct (contains "smooth" fn);
      [injection E as <-; split; [auto | reflexivity]|].
    apply find_some in E. destruct E as (Hin & Hc).
    split; [auto|]. exact (split_no_sep DOT fn id Hin).
  - right. split; [apply strip_file_name_exit; exact E | reflexivity].
Qed.

(** ** Extraction *)

(** X2. [compress_stats_data] has no effect on the instance, whether it
    returns or raises, and looks at no token beyond the first four of the
    general statistics, the first four of the mean link lengths and the
    first seven of the path distances. *)
Theorem compress_stats_data_reads_prefix {F} (float_of_str : string -> option F)
    (fn : string) (stats mean_links_length sum_of_path_nodes_distances
                   : list string) (s : state F) :
  fst (compress_stats_data float_of_str fn stats mean_links_length
         sum_of_path_nodes_distances s) = s /\
  compress_stats_data float_of_str fn stats mean_links_length
    sum_of_path_nodes_distances s =
  compress_stats_data float_of_str fn (firstn 4 stats)
    (firstn 4 mean_links_length) (firstn 7 sum_of_path_nodes_distances) s.
Proof.
  split.
  - destruct (compress_cases float_of_str fn stats mean_links_length
                sum_of_path_nodes_distances)
      as [(_ & x0 & x1 & x2 & x3 & _ & _ & _ & _ & H) | (_ & e & _ & H)];
      rewrite H; reflexivity.
  - rewrite compress_prefix. reflexivity.
Qed.

(** X3. Extraction reads the name of the file, whether the text has a line
    7, and the first four, four and seven tab-separated tokens of lines 1,
    4 and 7: two records that agree on these are extracted alike, whatever
    their other lines and tokens. *)
Theorem parse_reads_data_fields {F} (float_of_str : string -> option F)
    (lf lf' : log_file) (s : state F) :
  fn lf = fn lf' ->
  (nth_error (splitlines (f lf)) 7 = None <->
   nth_error (splitlines (f lf')) 7 = None) ->
  firstn 4 (tokens (f lf) 1) = firstn 4 (tokens (f lf') 1) ->
  firstn 4 (tokens (f lf) 4) = firstn 4 (tokens (f lf') 4) ->
  firstn 7 (tokens (f lf) 7) = firstn 7 (tokens (f lf') 7) ->
  parse_odgi_stats_report float_of_str lf s =
  parse_odgi_stats_report float_of_str lf' s.
Proof.
  intros Efn E7 T1 T4 T7. rewrite !parse_unfold.
  rewrite <- (compress_prefix float_of_str (fn lf)).
  rewrite <- (compress_prefix float_of_str (fn lf') (tokens (f lf') 1)).
  rewrite T1, T4, T7, Efn.
  destruct (nth_error (splitlines (f lf)) 7) as [l|] eqn:L,
           (nth_error (splitlines (f lf')) 7) as [l'|] eqn:L';
    try reflexivity.
  - destruct E7 as (_ & E7). specialize (E7 eq_refl). discriminate.
  - destruct E7 as (E7 & _). specialize (E7 eq_refl). discriminate.
Qed.

(** The docstring report and the text with other headers, a trailer and
    a field more on each data line. *)
Lemma parse_reads_data_fields_bare :
  parse_odgi_stats_report Double.float_of_str (record "x.smooth" docstring_text)
    fresh =
  parse_odgi_stats_report Double.float_of_str (record "x.smooth" bare_text) fresh.
Proof.
  apply (parse_reads_data_fields Double.float_of_str
           (record "x.smooth" docstring_text) (record "x.smooth" bare_text)).
  - reflexivity.
  - vm_compute. split; discriminate.
  - vm_compute. reflexivity.
  - vm_compute. reflexivity.
  - vm_compute. reflexivity.
Defined.

(** X4. When extraction of a record returns, it has called nothing of the
    host, the reports under the other names are what they were, the name
    of the record keeps its place among the keys of the store when it was
    there and goes last when it was not, and no key comes twice when none
    did. *)
Theorem parse_frame {F} (float_of_str : string -> option F)
    (lf : log_file) (s s' : state F) :
  parse_odgi_stats_report float_of_str lf s = (s', Ok tt) ->
  calls s' = calls s /\
  (forall name, name <> fn lf ->
     get (odgi_stats_map s') name = get (odgi_stats_map s) name) /\
  keys (odgi_stats_map s') =
    (if mem (fn lf) (keys (odgi_stats_map s))
     then keys (odgi_stats_map s)
     else keys (odgi_stats_map s) ++ [fn lf]) /\
  (NoDup (keys (odgi_stats_map s)) -> NoDup (keys (odgi_stats_map s'))).
Proof.
  intros H.
  destruct (parse_cases float_of_str lf)
    as [(_ & x0 & x1 & x2 & x3 & _ & _ & _ & _ & P) | (_ & e & _ & P)];
    rewrite P in H; [|discriminate].
  injection H as <-. cbn [with_map odgi_stats_map calls].
  split; [reflexivity|]. split.
  - intros name ne. apply get_set_ne. congruence.
  - split; [apply keys_set | apply NoDup_keys_set].
Qed.

(** The docstring report under a new name, into a store of one report. *)
Lemma parse_frame_new_name :
  exists s',
    parse_odgi_stats_report Double.float_of_str
      (record "y.smooth.tsv" docstring_text) (loaded one_seqwish) = (s', Ok tt) /\
    keys (odgi_stats_map s') = ["x.seqwish.og.tsv"; "y.smooth.tsv"] /\
    get (odgi_stats_map s') "x.seqwish.og.tsv" =
      get (odgi_stats_map (loaded one_seqwish)) "x.seqwish.og.tsv".
Proof.
  eexists. split; [vm_compute; reflexivity|].
  match goal with
  | |- keys (odgi_stats_map ?s1) = _ /\ _ =>
      destruct (parse_frame Double.float_of_str
                  (record "y.smooth.tsv" docstring_text) (loaded one_seqwish) s1)
        as (_ & Hget & Hkeys & _)
  end.
  - vm_compute. reflexivity.
  - split; [rewrite Hkeys; vm_compute; reflexivity|].
    apply Hget. discriminate.
Defined.

(** ** The run *)

(** X5. From an empty store the loop of [__init__] over well-formed
    records returns with every record registered as a data source, in
    the order found, and a store that has each name found once, in the
    order in which the names are first found, every entry being the
    report of a record found; under a name found several times stands
    the report of the last record of that name. *)
Theorem parse_all_store {F} (float_of_str : string -> option F)
    (found : list log_file) (s : state F) :
  (forall lf, In lf found -> well_formed float_of_str (f lf) = true) ->
  odgi_stats_map s = [] ->
  exists m,
    parse_all float_of_str found s =
      ({| odgi_stats_map := m; calls := calls s ++ map AddDataSource found |},
       Ok tt) /\
    keys m = distinct (map fn found) /\
    NoDup (keys m) /\
    (forall name v, get m name = Some v ->
       exists lf, In lf found /\ fn lf = name /\
                  extracted_report float_of_str lf v) /\
    (forall pre lf post,
       found = pre ++ lf :: post ->
       (forall later, In later post -> fn later <> fn lf) ->
       stored float_of_str m lf).
Proof.
  intros WF Empty.
  destruct (parse_all_cases float_of_str found s)
    as [(_ & entries & H2 & Hrun)
       | (pre & bad & post & e & entries & -> & _ & Bad & _)].
  - rewrite Empty in Hrun. exists (update [] entries).
    destruct (update_entries_store float_of_str found entries H2)
      as (Hkeys & _ & Hget & Hlast).
    split; [exact Hrun|]. split; [exact Hkeys|].
    split; [rewrite Hkeys; apply distinct_NoDup|].
    split; assumption.
  - rewrite WF in Bad; [discriminate|].
    apply in_or_app. right. left. reflexivity.
Qed.

(** A name found twice: it keeps its first place and has the second
    report. *)
Lemma parse_all_store_found_again :
  exists m,
    parse_all Double.float_of_str found_again fresh =
      ({| odgi_stats_map := m; calls := map AddDataSource found_again |}, Ok tt) /\
    keys m = ["a.smooth.tsv"; "b.seqwish.og"] /\
    stored Double.float_of_str m (record "a.smooth.tsv" other_text).
Proof.
  destruct (parse_all_store Double.float_of_str found_again fresh)
    as (m & Hrun & Hkeys & _ & _ & Hlast).
  - intros lf H. vm_compute in H.
    destruct H as [<- | [<- | [<- | []]]]; vm_compute; reflexivity.
  - reflexivity.
  - exists m. split; [exact Hrun|]. split; [rewrite Hkeys; reflexivity|].
    apply (Hlast [record "a.smooth.tsv" docstring_text;
                  record "b.seqwish.og" docstring_text]
                 (record "a.smooth.tsv" other_text) []).
    + reflexivity.
    + intros later [].
Defined.

(** X8. [__init__] ends in one of these ways: it returns, which needs a
    report found; it raises [UserWarning], exactly when none is found; it
    raises an [IndexError] or a [ValueError]; or it exits with status 1.
    It never raises [KeyError] or [TypeError]: the lookups of the two
    plotting methods are on reports that extraction has stored. *)
Theorem init_outcomes {F} (float_of_str : string -> option F)
    (found : list log_file) (s : state F) :
  match snd (init float_of_str found s) with
  | Ok _ => found <> []
  | Raise e => init_exception found e
  end.
Proof.
  destruct found as [|lf0 found0] eqn:Efound; [reflexivity|].
  rewrite <- Efound.
  assert (NE : found <> []) by (rewrite Efound; discriminate).
  clear Efound lf0 found0.
  rewrite init_unfold by exact NE.
  set (s0 := {| odgi_stats_map := []; calls := calls s ++ opening |}).
  destruct (parse_all_cases float_of_str found s0)
    as [(_ & entries & H2 & Hrun)
       | (pre & bad & post & e & entries & _ & _ & _ & He & _ & Hrun)].
  - rewrite (bind_ok _ _ _ _ _ Hrun). cbn [odgi_stats_map].
    destruct (update_entries_store float_of_str found entries H2)
      as (_ & Inv & _).
    set (s1 := {| odgi_stats_map := update [] entries;
                  calls := calls s0 ++ map AddDataSource found |}).
    rewrite bind_get_map, bind_host.
    set (s2 := with_call s1 (WriteDataFile (odgi_stats_map s1) "multiqc_odgi_stats")).
    assert (Inv2 : from_extraction float_of_str (odgi_stats_map s2)) by exact Inv.
    destruct (derivable_dec (odgi_stats_map s2)) as [Der | Bad].
    + destruct (plot_general_from_extraction float_of_str s2 Inv2 Der)
        as (data & Hgen).
      rewrite (bind_ok _ _ _ _ _ Hgen).
      destruct (plot_metrics_outcome float_of_str
                  (with_call s2 (GeneralStatsAddcols data summary_headers)) Inv2)
        as [(r & R) | (s' & e & R & [-> | ->])]; rewrite R; cbn [snd].
      * exact NE.
      * split; [reflexivity | exact NE].
      * exact NE.
    + rewrite (bind_raise _ _ _ _ _ (plot_general_exit float_of_str s2 Inv2 Bad)).
      cbn [snd]. split; [reflexivity | exact NE].
  - rewrite (bind_raise _ _ _ _ _ Hrun). cbn [snd].
    destruct He as [-> | ->]; exact NE.
Qed.

(** X9. When every record found is well formed, has a name with an
    identifier and numeric chart tokens, and there is one at least,
    [__init__] returns, and the host has been told, in this order: of the
    opening, with the count logged as 0 whatever the number found; of
    every record as a data source; of the data file, which is the store;
    of the summary table; of the chart section.  The store is the one
    the loop built. *)
Theorem init_ok {F} (float_of_str : string -> option F)
    (found : list log_file) (s : state F) :
  found <> [] ->
  (forall lf, In lf found ->
     well_formed float_of_str (f lf) = true /\
     deriveId_spec (fn lf) <> None /\
     chartable float_of_str (f lf) = true) ->
  exists m data r,
    init float_of_str found s =
      ({| odgi_stats_map := m;
          calls := calls s ++ opening ++ map AddDataSource found ++
                   [WriteDataFile m "multiqc_odgi_stats";
                    GeneralStatsAddcols data summary_headers;
                    metrics_section r] |}, Ok tt) /\
    keys m = distinct (map fn found).
Proof.
  intros NE Hall. rewrite init_unfold by exact NE.
  set (s0 := {| odgi_stats_map := []; calls := calls s ++ opening |}).
  destruct (parse_all_empty_store float_of_str found s0)
    as (m & Hrun & Hkeys & Inv & Hget); [|reflexivity|].
  { apply Forall_forall. intros lf Hin. apply Hall. exact Hin. }
  rewrite (bind_ok _ _ _ _ _ Hrun).
  set (s1 := {| odgi_stats_map := m;
                calls := calls s0 ++ map AddDataSource found |}).
  assert (Hname : forall name, In name (keys m) ->
            deriveId_spec name <> None /\
            chart_entry float_of_str m name <> None).
  { intros name Hin. apply get_in_keys in Hin.
    destruct (get m name) as [v|] eqn:Hg; [|contradiction].
    destruct (Hget name v Hg)
      as (lf & Hlf & <- & x0 & x1 & x2 & x3 & _ & _ & _ & _ & ->).
    destruct (Hall lf Hlf) as (_ & Hid & Hc).
    split; [exact Hid|].
    eapply chart_entry_chartable; eassumption. }
  destruct (plots_ok float_of_str s1) as (data & r & Hplots).
  - exact Inv.
  - intros name Hin. apply Hname. exact Hin.
  - intros name Hin. apply Hname. exact Hin.
  - exists m, data, r. split; [|exact Hkeys].
    rewrite Hplots. subst s1 s0. cbn [odgi_stats_map calls].
    rewrite <- !app_assoc. reflexivity.
Qed.

(** The run on the three stages. *)
Lemma init_ok_three_stages :
  exists m data r,
    init Double.float_of_str three_stages fresh =
      ({| odgi_stats_map := m;
          calls := opening ++ map AddDataSource three_stages ++
                   [WriteDataFile m "multiqc_odgi_stats";
                    GeneralStatsAddcols data summary_headers;
                    metrics_section r] |}, Ok tt) /\
    keys m = ["a.seqwish.og"; "b.smooth"; "c.consensus@1"].
Proof.
  destruct (init_ok Double.float_of_str three_stages fresh)
    as (m & data & r & Hrun & Hkeys).
  - discriminate.
  - intros lf H. vm_compute in H.
    destruct H as [<- | [<- | [<- | []]]];
      (split; [vm_compute; reflexivity|]);
      (split; [vm_compute; discriminate | vm_compute; reflexivity]).
  - exists m, data, r. split; [exact Hrun|]. rewrite Hkeys. reflexivity.
Defined.

(** X10. A name without identifier among well-formed records is found out
    only by the summary table: every record has been parsed and
    registered and the data file written when [__init__] logs the unknown
    file name and exits with status 1, and neither table nor chart is
    handed over. *)
Theorem init_exits_on_unknown_name {F} (float_of_str : string -> option F)
    (found : list log_file) (s : state F) :
  (forall lf, In lf found -> well_formed float_of_str (f lf) = true) ->
  (exists lf, In lf found /\ deriveId_spec (fn lf) = None) ->
  exists m,
    init float_of_str found s =
      ({| odgi_stats_map := m;
          calls := calls s ++ opening ++ map AddDataSource found ++
                   [WriteDataFile m "multiqc_odgi_stats";
                    LogError unknown_file_name] |},
       Raise (SystemExit 1)) /\
    keys m = distinct (map fn found).
Proof.
  intros WF (lf & Hlf & Hid).
  rewrite init_unfold by (intros ->; contradiction).
  set (s0 := {| odgi_stats_map := []; calls := calls s ++ opening |}).
  destruct (parse_all_empty_store float_of_str found s0)
    as (m & Hrun & Hkeys & Inv & _); [|reflexivity|].
  { apply Forall_forall. exact WF. }
  rewrite (bind_ok _ _ _ _ _ Hrun).
  set (s1 := {| odgi_stats_map := m;
                calls := calls s0 ++ map AddDataSource found |}).
  exists m. split; [|exact Hkeys].
  rewrite bind_get_map, bind_host.
  rewrite (bind_raise _ _ _ _ _
             (plot_general_exit float_of_str
                (with_call s1 (WriteDataFile (odgi_stats_map s1) "multiqc_odgi_stats"))
                Inv
                (ex_intro _ (fn lf)
                   (conj (proj2 (distinct_in_keys m found lf Hkeys) (or_introl Hlf)) Hid)))).
  subst s1 s0. unfold with_call. cbn [odgi_stats_map calls].
  rewrite <- !app_assoc. reflexivity.
Qed.

(** A name of no convention after a good one. *)
Lemma init_exits_on_random_name :
  exists m,
    init Double.float_of_str then_unknown fresh =
      ({| odgi_stats_map := m;
          calls := opening ++ map AddDataSource then_unknown ++
                   [WriteDataFile m "multiqc_odgi_stats";
                    LogError unknown_file_name] |},
       Raise (SystemExit 1)) /\
    keys m = ["a.smooth.tsv"; "random_name.tsv"].
Proof.
  destruct (init_exits_on_unknown_name Double.float_of_str then_unknown fresh)
    as (m & Hrun & Hkeys).
  - intros lf H. vm_compute in H.
    destruct H as [<- | [<- | []]]; vm_compute; reflexivity.
  - exists (record "random_name.tsv" other_text).
    split; [right; left; reflexivity | reflexivity].
  - exists m. split; [exact Hrun|]. rewrite Hkeys. reflexivity.
Defined.

(** X6. A record that is not well formed stops the run: [__init__] raises
    the FormatError of its extraction, and the host has been told of the
    opening and of the records before it only; no data file is written,
    no table and no chart handed over.  The store holds the names found
    before. *)
Theorem init_aborts_on_malformed {F} (float_of_str : string -> option F)
    (pre : list log_file) (bad : log_file) (post : list log_file)
    (s : state F) :
  (forall lf, In lf pre -> well_formed float_of_str (f lf) = true) ->
  well_formed float_of_str (f bad) = false ->
  exists e m,
    is_FormatError e /\
    init float_of_str (pre ++ bad :: post) s =
      ({| odgi_stats_map := m;
          calls := calls s ++ opening ++ map AddDataSource pre |}, Raise e) /\
    keys m = distinct (map fn pre).
Proof.
  intros WF Bad.
  rewrite init_unfold by (destruct pre; discriminate).
  apply Forall_forall in WF.
  destruct (parse_all_cases float_of_str (pre ++ bad :: post)
              {| odgi_stats_map := []; calls := calls s ++ opening |})
    as [(WFs & _)
       | (pre' & bad' & post' & e & entries & E & WF' & Bad' & He & H2 & Hrun)].
  - rewrite Forall_forall in WFs. rewrite WFs in Bad; [discriminate|].
    apply in_or_app. right. left. reflexivity.
  - assert (pre = pre') as <-
      by (eapply first_bad_unique; eassumption).
    exists e, (update [] entries). split; [exact He|]. split.
    + rewrite (bind_raise _ _ _ _ _ Hrun). cbn [odgi_stats_map calls].
      rewrite <- app_assoc. reflexivity.
    + apply (update_entries_store float_of_str pre entries H2).
Qed.

(** A text of three lines after a good report. *)
Lemma init_aborts_on_short_text :
  exists e m,
    is_FormatError e /\
    init Double.float_of_str then_short fresh =
      ({| odgi_stats_map := m;
          calls := opening ++
                   [AddDataSource (record "a.smooth.tsv" docstring_text)] |},
       Raise e) /\
    keys m = ["a.smooth.tsv"].
Proof.
  apply (init_aborts_on_malformed Double.float_of_str
           [record "a.smooth.tsv" docstring_text]
           (record "b.smooth.tsv" short_text)
           [record "c.smooth.tsv" other_text] fresh).
  - intros lf [<- | []]. vm_compute. reflexivity.
  - vm_compute. reflexivity.
Defined.

(** ** The two plotting methods *)

(** X7. Neither plotting method, nor [strip_file_name], ever changes the
    store, whatever it holds and whether they return or raise; all they
    do to the instance is to add to the calls made. *)
Theorem plotting_keeps_store {F} (float_of_str : string -> option F) :
  keeps_store (@plot_general_odgi_stats F) /\
  keeps_store (plot_odgi_metrics float_of_str) /\
  (forall fn, keeps_store (@strip_file_name F fn)).
Proof.
  split; [apply keeps_plot_general|].
  split; [apply keeps_plot_metrics | apply keeps_strip_file_name].
Qed.

(** X11. The order in which [plot_odgi_metrics] visits the files depends
    on the names in the store only, not on the order in which the files
    were found. *)
Theorem sorted_filenames_order_free {F} (m m' : dict F) :
  Permutation (keys m) (keys m') ->
  sorted_filenames m = sorted_filenames m'.
Proof.
  intros P. unfold sorted_filenames.
  rewrite (sorted_perm_eq _ _ P). reflexivity.
Qed.

(** The three stages, found in two orders. *)
Lemma sorted_filenames_order_free_shuffled :
  sorted_filenames (odgi_stats_map (loaded three_stages_shuffled)) =
    ["b.smooth"; "c.consensus@1"; "a.seqwish.og"].
Proof.
  rewrite (sorted_filenames_order_free
             (odgi_stats_map (loaded three_stages_shuffled))
             (odgi_stats_map (loaded three_stages))).
  - vm_compute. reflexivity.
  - vm_compute.
    apply (Permutation_cons_app ["a.seqwish.og"; "b.smooth"] []).
    reflexivity.
Defined.

(** X12. The summary table has one row for each identifier derived, in the
    order in which the identifiers are first derived along the store: a
    file that derives an identifier already there changes the row and not
    its place.  So the table has no more rows than the store has files. *)
Theorem summary_table_rows {F} (s : state F) :
  let m := odgi_stats_map s in
  (forall name, In name (keys m) ->
     deriveId_spec name <> None /\ section_of m "General stats " name <> None) ->
  exists data ids,
    plot_general_odgi_stats s =
      (with_call s (GeneralStatsAddcols data summary_headers), Ok tt) /\
    Forall2 (fun name id => deriveId_spec name = Some id) (keys m) ids /\
    keys data = distinct ids /\
    NoDup (keys data) /\
    List.length data <= List.length m.
Proof.
  intros m Hall.
  destruct (forall_exists_Forall2
              (fun name e => summary_entry m name = Some e) (keys m))
    as (entries & Hentries).
  { intros name Hin. destruct (Hall name Hin) as (Hid & Hrow).
    unfold summary_entry.
    destruct (deriveId_spec name) as [id|]; [|contradiction].
    destruct (section_of m "General stats " name) as [row|]; [|contradiction].
    eauto. }
  exists (update [] entries), (map fst entries).
  split; [apply plot_general_ok; exact Hentries|].
  split; [eapply summary_entries_ids; exact Hentries|].
  rewrite keys_update_empty.
  split; [reflexivity|]. split; [apply distinct_NoDup|].
  rewrite <- (length_map fst (update [] entries)).
  change (map fst (update [] entries)) with (keys (update [] entries)).
  rewrite keys_update_empty.
  rewrite <- (length_map fst m). change (map fst m) with (keys m).
  rewrite (Forall2_length Hentries), <- (length_map fst entries).
  apply distinct_length.
Qed.

(** Two files of the smoothed graph make one row. *)
Lemma summary_table_rows_two_smooth :
  exists data,
    plot_general_odgi_stats (loaded two_smooth) =
      (with_call (loaded two_smooth) (GeneralStatsAddcols data summary_headers),
       Ok tt) /\
    keys data = ["smooth"].
Proof.
  destruct (summary_table_rows (loaded two_smooth))
    as (data & ids & Hplot & Hids & Hkeys & _).
  - intros name H. vm_compute in H.
    destruct H as [<- | [<- | []]]; split; vm_compute; discriminate.
  - exists data. split; [exact Hplot|]. rewrite Hkeys.
    vm_compute in Hids.
    inversion Hids as [|? id1 ? ids1 E1 Hids1]; subst.
    inversion Hids1 as [|? id2 ? ids2 E2 Hids2]; subst.
    inversion Hids2; subst.
    vm_compute in E1, E2. injection E1 as <-. injection E2 as <-.
    reflexivity.
Defined.

(** X13. On a store of extracted reports whose names all have an
    identifier and numeric chart tokens, the four series have the same
    keys: the identifiers derived, in the order in which they are first
    derived along the files as [plot_odgi_metrics] visits them. *)
Theorem series_keys {F} (float_of_str : string -> option F) (s : state F) :
  let m := odgi_stats_map s in
  from_extraction float_of_str m ->
  derivable m ->
  (forall name, In name (keys m) -> chart_entry float_of_str m name <> None) ->
  exists r ids,
    odgi_metrics_series float_of_str s = (s, Ok r) /\
    Forall2 (fun name id => deriveId_spec name = Some id) (sorted_filenames m) ids /\
    keys (mean_links_length_nodes_space r) = distinct ids /\
    keys (mean_links_length_nucleotide_space r) = distinct ids /\
    keys (sum_of_path_nodes_distances_nodes_space r) = distinct ids /\
    keys (sum_of_path_nodes_distances_nucleotide_space r) = distinct ids.
Proof.
  intros m Inv Der Chart.
  destruct (metrics_series_ok float_of_str s Inv Der Chart)
    as (entries & Hentries & Hrun).
  exists (fold_left series_step entries series_empty),
         (map (fun e => fst (fst (fst (fst e)))) entries).
  split; [exact Hrun|].
  split; [eapply chart_entries_ids; exact Hentries|].
  destruct (fold_series_step entries series_empty) as (H1 & H2 & H3 & H4).
  rewrite H1, H2, H3, H4. cbn [series_empty mean_links_length_nodes_space
    mean_links_length_nucleotide_space sum_of_path_nodes_distances_nodes_space
    sum_of_path_nodes_distances_nucleotide_space].
  rewrite !keys_update_empty, !map_map.
  assert (E : forall (p : string * F * F * F * F -> string * value F),
            (forall e, fst (p e) = fst (fst (fst (fst e)))) ->
            map (fun e => fst (p e)) entries =
            map (fun e => fst (fst (fst (fst e)))) entries)
    by (intros p Hp; apply map_ext; exact Hp).
  repeat split; f_equal; apply E; intros [[[[? ?] ?] ?] ?]; reflexivity.
Qed.

(** The three stages: [smooth], [consensus@1], [seqwish]. *)
Lemma series_keys_three_stages :
  exists r,
    odgi_metrics_series Double.float_of_str (loaded three_stages) =
      (loaded three_stages, Ok r) /\
    keys (mean_links_length_nodes_space r) = ["smooth"; "consensus@1"; "seqwish"].
Proof.
  destruct (series_keys Double.float_of_str (loaded three_stages))
    as (r & ids & Hrun & Hids & Hkeys & _).
  - apply (parse_loop_from_extraction Double.float_of_str three_stages fresh).
    + vm_compute. reflexivity.
    + intros name [].
  - intros name H. vm_compute in H.
    destruct H as [<- | [<- | [<- | []]]]; vm_compute; discriminate.
  - intros name H. vm_compute in H.
    destruct H as [<- | [<- | [<- | []]]]; vm_compute; discriminate.
  - exists r. split; [exact Hrun|]. rewrite Hkeys.
    vm_compute in Hids.
    inversion Hids as [|? id1 ? ids1 E1 Hids1]; subst.
    inversion Hids1 as [|? id2 ? ids2 E2 Hids2]; subst.
    inversion Hids2 as [|? id3 ? ids3 E3 Hids3]; subst.
    inversion Hids3; subst.
    vm_compute in E1, E2, E3.
    injection E1 as <-. injection E2 as <-. injection E3 as <-.
    reflexivity.
Defined.

(** X14. A chart token that is not numeric, in a record that stays in the
    store, is found out last: when every record is well formed and every
    name has an identifier, [__init__] raises [ValueError] after the data
    file has been written and the summary table handed over, and no chart
    section is added. *)
Theorem init_raises_on_chart_token {F} (float_of_str : string -> option F)
    (pre : list log_file) (lf : log_file) (post : list log_file)
    (s : state F) :
  (forall r, In r (pre ++ lf :: post) ->
     well_formed float_of_str (f r) = true /\ deriveId_spec (fn r) <> None) ->
  (forall later, In later post -> fn later <> fn lf) ->
  chartable float_of_str (f lf) = false ->
  exists m data,
    init float_of_str (pre ++ lf :: post) s =
      ({| odgi_stats_map := m;
          calls := calls s ++ opening ++
                   map AddDataSource (pre ++ lf :: post) ++
                   [WriteDataFile m "multiqc_odgi_stats";
                    GeneralStatsAddcols data summary_headers] |},
       Raise ValueError).
Proof.
  intros Hall Hlater Hc.
  rewrite init_unfold by (destruct pre; discriminate).
  set (found := pre ++ lf :: post) in *.
  set (s0 := {| odgi_stats_map := []; calls := calls s ++ opening |}).
  destruct (parse_all_cases float_of_str found s0)
    as [(_ & entries & H2 & Hrun)
       | (pre' & bad & post' & e & entries & E & _ & Bad & _)].
  - destruct (update_entries_store float_of_str found entries H2)
      as (_ & Inv & Hget & Hlast).
    set (m := update [] entries) in *.
    assert (Der : derivable m).
    { intros name Hin. apply get_in_keys in Hin.
      destruct (get m name) as [v|] eqn:Hg; [|contradiction].
      destruct (Hget name v Hg) as (r & Hr & <- & _).
      apply Hall. exact Hr. }
    destruct (Hlast pre lf post eq_refl Hlater)
      as (v & Hv & x0 & x1 & x2 & x3 & _ & _ & _ & _ & ->).
    rewrite (bind_ok _ _ _ _ _ Hrun).
    set (s1 := {| odgi_stats_map := update (odgi_stats_map s0) entries;
                  calls := calls s0 ++ map AddDataSource found |}).
    rewrite bind_get_map, bind_host.
    set (s2 := with_call s1 (WriteDataFile (odgi_stats_map s1) "multiqc_odgi_stats")).
    destruct (plot_general_from_extraction float_of_str s2 Inv Der)
      as (data & Hgen).
    exists m, data.
    rewrite (bind_ok _ _ _ _ _ Hgen).
    unfold plot_odgi_metrics.
    rewrite (bind_raise _ _ _ _ _
               (metrics_series_raise float_of_str
                  (with_call s2 (GeneralStatsAddcols data summary_headers))
                  (fn lf) (f lf) _ Inv Der Hv Hc)).
    subst s2 s1 s0. unfold with_call. cbn [odgi_stats_map calls].
    rewrite <- !app_assoc. reflexivity.
  - destruct (Hall bad) as (WF & _); [|congruence].
    rewrite E. apply in_or_app. right. left. reflexivity.
Qed.

(** A word for the mean link length of the last file found. *)
Lemma init_raises_on_bad_links :
  exists m data,
    init Double.float_of_str
      [record "a.smooth.tsv" docstring_text; record "b.smooth.tsv" bad_links_text]
      fresh =
      ({| odgi_stats_map := m;
          calls := opening ++
                   [AddDataSource (record "a.smooth.tsv" docstring_text);
                    AddDataSource (record "b.smooth.tsv" bad_links_text);
                    WriteDataFile m "multiqc_odgi_stats";
                    GeneralStatsAddcols data summary_headers] |},
       Raise ValueError).
Proof.
  apply (init_raises_on_chart_token Double.float_of_str
           [record "a.smooth.tsv" docstring_text]
           (record "b.smooth.tsv" bad_links_text) [] fresh).
  - intros r H. vm_compute in H.
    destruct H as [<- | [<- | []]];
      (split; [vm_compute; reflexivity | vm_compute; discriminate]).
  - intros later [].
  - vm_compute. reflexivity.
Defined.

End OdgiExtra.
